(** * The math assistant's answer-resolution pipeline

    A shallow embedding of [src/solver.py], [src/explanation_generator.py],
    [frontend/streamlit_app.py] (the handler of the Solve button) and
    [app.py].

    The program is glue around an external computer-algebra library
    (SymPy, imported as [sp]).  The library is not part of the repository:
    it is taken as an interface ([sp.CAS]) whose operations may raise, and
    the Python code is written against that interface in an exception
    monad.  A Python exception is represented by its message, [str(e)],
    which is all the handlers of this program ever look at, and by
    whether it is an [Exception]: every handler of the program is an
    [except Exception], which lets the other exceptions through. *)

From Stdlib Require Import String Ascii List Bool Arith ZArith Lia.
From Stdlib Require Import DecimalString.
From ExtLib Require Import Structures.Monad Structures.MonadExc.
From ExtLib Require Import Data.Monads.EitherMonad.
Import ListNotations.
Import MonadNotation.
Local Open Scope string_scope.
Local Open Scope monad_scope.

(** ** Exceptions *)

(** What can be raised: an instance of [Exception] (or of a subclass), or
    one of the exceptions that derive from [BaseException] only
    ([SystemExit], [KeyboardInterrupt], [GeneratorExit]). *)
Inductive exception : Type :=
| Exception (message : string)
| BaseException (message : string).

(** A computation that returns an [A] or raises. *)
Definition exc (A : Type) : Type := (exception + A)%type.

#[global] Instance Monad_exc : Monad exc := Monad_either exception.
#[global] Instance MonadExc_exc : MonadExc exception exc :=
  Exception_either exception.

(** [try: c  except Exception as e: h (str(e))]: what is not an
    [Exception] passes through. *)
Definition try_except {A} (c : exc A) (h : string -> exc A) : exc A :=
  match c with
  | inl (Exception message) => h message
  | _ => c
  end.

(** A list comprehension / [for] loop whose body may raise: elements are
    processed left to right and the first exception aborts the loop. *)
Fixpoint mapM {A B} (f : A -> exc B) (l : list A) : exc (list B) :=
  match l with
  | [] => ret []
  | a :: l' => b <- f a ;; bs <- mapM f l' ;; ret (b :: bs)
  end.

(** ** Python string built-ins

    Text is the UTF-8 encoding of the Python string: a character is one
    to four bytes, and no character's encoding occurs inside another's.
    Whitespace and line boundaries are all those Python recognises,
    the ASCII ones as one byte and the others by their two- and
    three-byte encodings. *)
Module Py.

(** [s.startswith(p)] *)
Fixpoint startswith (s p : string) {struct p} : bool :=
  match p, s with
  | EmptyString, _ => true
  | String _ _, EmptyString => false
  | String a p', String b s' => Ascii.eqb a b && startswith s' p'
  end.

(** [sub in s] *)
Fixpoint contains (sub s : string) : bool :=
  startswith s sub ||
  match s with
  | EmptyString => false
  | String _ s' => contains sub s'
  end.

(** [s.endswith(suf)] *)
Fixpoint endswith (s suf : string) : bool :=
  String.eqb s suf ||
  match s with
  | EmptyString => false
  | String _ s' => endswith s' suf
  end.

Definition byte_is (n : nat) (b : ascii) : bool :=
  (nat_of_ascii b =? n)%nat.

Definition byte_in (low high : nat) (b : ascii) : bool :=
  ((low <=? nat_of_ascii b) && (nat_of_ascii b <=? high))%nat.

(** The characters [str.isspace] accepts.  One byte: TAB, LF, VT, FF, CR,
    FS, GS, RS, US and the space. *)
Definition space1 (b : ascii) : bool := byte_in 9 13 b || byte_in 28 32 b.

(** Two bytes: U+0085 and U+00A0. *)
Definition space2 (b1 b2 : ascii) : bool :=
  byte_is 194 b1 && (byte_is 133 b2 || byte_is 160 b2).

(** Three bytes: U+1680; U+2000 to U+200A, U+2028, U+2029 and U+202F;
    U+205F; U+3000. *)
Definition space3 (b1 b2 b3 : ascii) : bool :=
  (byte_is 225 b1 && (byte_is 154 b2 && byte_is 128 b3))
  || (byte_is 226 b1
      && ((byte_is 128 b2
           && (byte_in 128 138 b3 || byte_in 168 169 b3 || byte_is 175 b3))
          || (byte_is 129 b2 && byte_is 159 b3)))
  || (byte_is 227 b1 && (byte_is 128 b2 && byte_is 128 b3)).

(** A byte that is neither an ASCII space nor the first byte of one of
    the longer whitespace characters. *)
Definition starts_no_space (c : ascii) : bool :=
  negb (space1 c || byte_is 194 c || byte_is 225 c
        || byte_is 226 c || byte_is 227 c).

(** What is left of [s] after the whitespace character it starts with,
    when it starts with one. *)
Definition after_space (s : string) : option string :=
  match s with
  | EmptyString => None
  | String b1 s1 =>
      if space1 b1 then Some s1 else
      match s1 with
      | EmptyString => None
      | String b2 s2 =>
          if space2 b1 b2 then Some s2 else
          match s2 with
          | EmptyString => None
          | String b3 s3 => if space3 b1 b2 b3 then Some s3 else None
          end
      end
  end.

(** [s.lstrip()] *)
Fixpoint lstrip (s : string) : string :=
  match s with
  | EmptyString => EmptyString
  | String b1 s1 =>
      if space1 b1 then lstrip s1 else
      match s1 with
      | EmptyString => s
      | String b2 s2 =>
          if space2 b1 b2 then lstrip s2 else
          match s2 with
          | EmptyString => s
          | String b3 s3 => if space3 b1 b2 b3 then lstrip s3 else s
          end
      end
  end.

(** [s] is made of whitespace characters only (possibly of none). *)
Fixpoint blank (s : string) : bool :=
  match s with
  | EmptyString => true
  | String b1 s1 =>
      if space1 b1 then blank s1 else
      match s1 with
      | EmptyString => false
      | String b2 s2 =>
          if space2 b1 b2 then blank s2 else
          match s2 with
          | EmptyString => false
          | String b3 s3 => if space3 b1 b2 b3 then blank s3 else false
          end
      end
  end.

(** [s.rstrip()]: the text is cut where only whitespace follows. *)
Fixpoint rstrip (s : string) : string :=
  match s with
  | EmptyString => EmptyString
  | String b s' => if blank s then EmptyString else String b (rstrip s')
  end.

(** [s.strip()] *)
Definition strip (s : string) : string := rstrip (lstrip s).

(** Some character of [s] is not whitespace. *)
Definition has_visible (s : string) : bool := negb (blank s).

(** [sep.join(parts)] *)
Fixpoint join (sep : string) (parts : list string) : string :=
  match parts with
  | [] => EmptyString
  | [p] => p
  | p :: ps => p ++ sep ++ join sep ps
  end.

(** The line boundaries of [str.splitlines].  One byte: LF, VT, FF, CR,
    FS, GS and RS; two bytes: U+0085; three bytes: U+2028 and U+2029.
    CR followed by LF is one boundary. *)
Definition break1 (b : ascii) : bool := byte_in 10 13 b || byte_in 28 30 b.

Definition break2 (b1 b2 : ascii) : bool := byte_is 194 b1 && byte_is 133 b2.

Definition break3 (b1 b2 b3 : ascii) : bool :=
  byte_is 226 b1 && (byte_is 128 b2 && byte_in 168 169 b3).

Definition is_cr (c : ascii) : bool := Ascii.eqb c "013"%char.
Definition is_lf (c : ascii) : bool := Ascii.eqb c "010"%char.

(** [splitlines_from cur s]: [cur] is the line read so far. *)
Fixpoint splitlines_from (cur : string) (s : string) : list string :=
  match s with
  | EmptyString =>
      match cur with
      | EmptyString => []
      | _ => [cur]
      end
  | String b1 s1 =>
      if is_cr b1 then
        match s1 with
        | EmptyString => [cur]
        | String b2 s2 =>
            if is_lf b2 then cur :: splitlines_from EmptyString s2
            else cur :: splitlines_from EmptyString s1
        end
      else if break1 b1 then cur :: splitlines_from EmptyString s1
      else
        match s1 with
        | EmptyString => splitlines_from (cur ++ String b1 EmptyString) s1
        | String b2 s2 =>
            if break2 b1 b2 then cur :: splitlines_from EmptyString s2 else
            match s2 with
            | EmptyString => splitlines_from (cur ++ String b1 EmptyString) s1
            | String b3 s3 =>
                if break3 b1 b2 b3 then cur :: splitlines_from EmptyString s3
                else splitlines_from (cur ++ String b1 EmptyString) s1
            end
        end
  end.

(** [s.splitlines()] *)
Definition splitlines (s : string) : list string :=
  splitlines_from EmptyString s.

(** [s] starts with a line boundary. *)
Definition starts_break (s : string) : bool :=
  match s with
  | EmptyString => false
  | String b1 s1 =>
      is_cr b1 || break1 b1
      || match s1 with
         | EmptyString => false
         | String b2 s2 =>
             break2 b1 b2
             || match s2 with
                | EmptyString => false
                | String b3 _ => break3 b1 b2 b3
                end
         end
  end.

(** A line boundary starts at one of the first [k] bytes of [s]. *)
Fixpoint breaks_within (k : nat) (s : string) : bool :=
  match k, s with
  | S k', String _ s' => starts_break s || breaks_within k' s'
  | _, _ => false
  end.

(** There is a line boundary somewhere in [s]. *)
Definition has_break (s : string) : bool := breaks_within (String.length s) s.

(** [s.replace(old, new)] for a non-empty [old]: occurrences are found left
    to right and do not overlap.  [skip] counts the characters of an
    occurrence that are still to be dropped. *)
Fixpoint replace_from (old new : string) (skip : nat) (s : string) : string :=
  match s with
  | EmptyString => EmptyString
  | String c s' =>
      match skip with
      | S k => replace_from old new k s'
      | O =>
          if startswith s old
          then new ++ replace_from old new (String.length old - 1) s'
          else String c (replace_from old new 0 s')
      end
  end.

(** [s.replace(old, new)]; with an empty [old] Python puts [new] before
    every character and at the end. *)
Definition replace (s old new : string) : string :=
  match old with
  | EmptyString =>
      (fix between (t : string) : string :=
         match t with
         | EmptyString => new
         | String c t' => new ++ String c (between t')
         end) s
  | _ => replace_from old new 0 s
  end.


End Py.

(** ** The external computer-algebra library

    [sp.CAS Expr] lists what the program asks of SymPy.  Every call may
    raise; [isinstance] tests and [getattr(obj, "is_Number", False)] cannot.
    [free_symbols] gives the free-symbol set in the order in which the
    library iterates over it, which is the order [list(expr.free_symbols)]
    sees. *)
Module sp.

(** What [sp.solve(equation, symbol)] hands back: normally a list of
    values, but the callers also provide for anything else. *)
Inductive solutions (Expr : Type) : Type :=
| a_list (values : list Expr)
| an_object (value : Expr).
Arguments a_list {Expr} values.
Arguments an_object {Expr} value.

Class CAS (Expr : Type) : Type := {
  sympify : string -> exc Expr;
  is_Derivative : Expr -> bool;
  is_Integral : Expr -> bool;
  is_Equality : Expr -> bool;
  is_Number : Expr -> bool;
  doit : Expr -> exc Expr;
  free_symbols : Expr -> exc (list Expr);
  simplify : Expr -> exc Expr;
  factor : Expr -> exc Expr;
  N : Expr -> exc Expr;
  Integer : Z -> Expr;
  Eq : Expr -> Expr -> exc Expr;
  lhs : Expr -> exc Expr;
  rhs : Expr -> exc Expr;
  sub : Expr -> Expr -> exc Expr;
  (** [a != b] *)
  differs : Expr -> Expr -> bool;
  (** [sp.solve(equation, dict=True)]: a list of dictionaries, each in
      the order of its [items()] *)
  solve_dict : Expr -> exc (list (list (Expr * Expr)));
  solve : Expr -> Expr -> exc (solutions Expr);
  (** [bool(obj)] for a [solve] result that is not a list *)
  truth : Expr -> exc bool;
  pretty : Expr -> exc string;
  latex : Expr -> exc string;
  (** [str(obj)], also what an f-string field [{obj}] expands to *)
  str : Expr -> exc string
}.

End sp.

(** The five problem shapes; each [return] of the solver and of the
    explanation generator is labelled with the shape of the block that
    contains it. *)
Inductive Shape : Type :=
| Derivative
| Integral
| Equality
| ConstantExpression
| ExpressionWithSymbols.

Definition Shape_eqb (a b : Shape) : bool :=
  match a, b with
  | Derivative, Derivative
  | Integral, Integral
  | Equality, Equality
  | ConstantExpression, ConstantExpression
  | ExpressionWithSymbols, ExpressionWithSymbols => true
  | _, _ => false
  end.

Definition nl : string := String "010" EmptyString.

(** [vars_list[0]] *)
Definition first_item {A} (l : list A) : exc A :=
  match l with
  | [] => raise (Exception "list index out of range")
  | a :: _ => ret a
  end.

Definition is_nil {A} (l : list A) : bool :=
  match l with
  | [] => true
  | _ => false
  end.

(** ** [src/solver.py] *)
Section Solver.

Context {Expr : Type} {cas : sp.CAS Expr}.

(** [if sol_values:] *)
Definition truthy (s : sp.solutions Expr) : exc bool :=
  match s with
  | sp.a_list values => ret (negb (is_nil values))
  | sp.an_object value => sp.truth value
  end.

Definition _sympy_to_display (obj : Expr) : exc string :=
  try_except
    (if sp.is_Number obj
     then n <- sp.N obj ;; sp.str n
     else text <- sp.pretty obj ;;
          ret (Py.join " " (map Py.strip (Py.splitlines text))))
    (fun _ => sp.str obj).

(** The [except] clause of [solve_math_problem]. *)
Definition error_answer (e : string) : string * string :=
  let msg := "Error: " ++ e in
  let latex_msg := "\text{" ++ Py.replace msg "}" "\}" ++ "}" in
  (msg, latex_msg).

(** [expr.doit() if isinstance(expr, K) else sp.sympify(problem).doit()] *)
Definition evaluate (is_K : bool) (expr : Expr) (problem : string) : exc Expr :=
  if is_K then sp.doit expr
  else again <- sp.sympify problem ;; sp.doit again.

(** The body of the [try] of [solve_math_problem].  [sp.symbols("x y z")]
    binds three names that are never used and is left out. *)
Definition solve_try (problem : string) : exc (Shape * (string * string)) :=
  expr <- sp.sympify problem ;;
  if sp.is_Derivative expr || Py.contains "diff(" problem then
    deriv <- evaluate (sp.is_Derivative expr) expr problem ;;
    display <- _sympy_to_display deriv ;;
    latex <- sp.latex deriv ;;
    ret (Derivative, (display, latex))
  else if sp.is_Integral expr || Py.contains "integrate(" problem then
    integral <- evaluate (sp.is_Integral expr) expr problem ;;
    shown <- _sympy_to_display integral ;;
    tex <- sp.latex integral ;;
    ret (Integral, (shown ++ " + C", tex ++ " + C"))
  else if sp.is_Equality expr then
    sol <- sp.solve_dict expr ;;
    if is_nil sol then ret (Equality, ("No solution", "\text{No solution}"))
    else
      parts <- mapM (fun item : Expr * Expr =>
                       let (var, val) := item in
                       name <- sp.str var ;;
                       shown <- _sympy_to_display val ;;
                       eq <- sp.Eq var val ;;
                       tex <- sp.latex eq ;;
                       ret (name ++ " = " ++ shown, tex))
                    (concat sol) ;;
      ret (Equality, (Py.join ", " (map fst parts),
                      Py.join "\; , \; " (map snd parts)))
  else
    symbols <- sp.free_symbols expr ;;
    if is_nil symbols then
      simplified <- sp.simplify expr ;;
      numeric <- sp.N simplified ;;
      display <- _sympy_to_display numeric ;;
      latex <- sp.latex numeric ;;
      ret (ConstantExpression, (display, latex))
    else
      vars_list <- sp.free_symbols expr ;;
      primary_var <- first_item vars_list ;;
      eq0 <- sp.Eq expr (sp.Integer 0) ;;
      sol_values <- sp.solve eq0 primary_var ;;
      found <- truthy sol_values ;;
      if found then
        match sol_values with
        | sp.a_list values =>
            display_parts <- mapM (fun v =>
                                     name <- sp.str primary_var ;;
                                     shown <- _sympy_to_display v ;;
                                     ret (name ++ " = " ++ shown)) values ;;
            latex_parts <- mapM (fun v =>
                                   eq <- sp.Eq primary_var v ;;
                                   sp.latex eq) values ;;
            ret (ExpressionWithSymbols,
                 (Py.join ", " display_parts, Py.join "\; , \; " latex_parts))
        | sp.an_object value =>
            name <- sp.str primary_var ;;
            shown <- _sympy_to_display value ;;
            eq <- sp.Eq primary_var value ;;
            tex <- sp.latex eq ;;
            ret (ExpressionWithSymbols, (name ++ " = " ++ shown, tex))
        end
      else
        simplified <- sp.simplify expr ;;
        display <- _sympy_to_display simplified ;;
        latex <- sp.latex simplified ;;
        ret (ExpressionWithSymbols, (display, latex)).

(** The function: an [Exception] that leaves the [try] becomes the
    error pair; anything else that is raised goes on to the caller. *)
Definition solve_math_problem (problem : string) : exc (string * string) :=
  try_except (found <- solve_try problem ;; ret (snd found))
             (fun e => ret (error_answer e)).

End Solver.

(** ** [src/explanation_generator.py] *)
Section Explanation.

Context {Expr : Type} {cas : sp.CAS Expr}.

(** What [_latex_block] may be given. *)
Inductive block_arg : Type :=
| none_arg
| str_arg (s : string)
| obj_arg (obj : Expr).

Definition _latex_block (arg : block_arg) : exc string :=
  match arg with
  | none_arg => ret EmptyString
  | str_arg s => ret ("$$ " ++ s ++ " $$")
  | obj_arg obj => tex <- sp.latex obj ;; ret ("$$ " ++ tex ++ " $$")
  end.

Definition friendly_line : string :=
  "**Here's what I found — short answer first, then a quick walkthrough:**".

Definition sorry_line : string :=
  "**Sorry — I couldn't generate a walkthrough.**".

(** The factoring step.  The two [append]s sit inside their own
    [try ... except Exception: pass]: when factoring raises an
    [Exception] nothing is added, and when rendering the factored form
    raises one the sentence announcing it has already been appended. *)
Definition factor_lines (expr : Expr) : exc (list string) :=
  try_except
    (fact <- sp.factor expr ;;
     if sp.differs fact expr then
       try_except
         (block <- _latex_block (obj_arg fact) ;;
          ret ["- I checked for factorization and found:"; block])
         (fun _ => ret ["- I checked for factorization and found:"])
     else ret [])
    (fun _ => ret []).

(** The body of the [try] of [generate_explanation]; [parts] is built up
    in the order of the [append]s. *)
Definition explain_try (problem : string) : exc (Shape * string) :=
  expr <- sp.sympify problem ;;
  symbols <- sp.free_symbols expr ;;
  if is_nil symbols
     && negb (sp.is_Derivative expr || sp.is_Integral expr || sp.is_Equality expr)
  then
    simplified <- sp.simplify expr ;;
    val <- sp.N simplified ;;
    shown <- sp.str val ;;
    block <- _latex_block (obj_arg val) ;;
    ret (ConstantExpression,
         Py.join (nl ++ nl)
           [friendly_line; "**Short answer:** " ++ shown; EmptyString;
            "**Walkthrough:**";
            "- I simplified the expression `" ++ problem ++ "` and evaluated it.";
            block])
  else if sp.is_Derivative expr || Py.contains "diff(" problem then
    deriv <- evaluate (sp.is_Derivative expr) expr problem ;;
    shown <- sp.pretty deriv ;;
    block <- _latex_block (obj_arg deriv) ;;
    ret (Derivative,
         Py.join (nl ++ nl)
           [friendly_line; "**Short answer:** " ++ shown; EmptyString;
            "**Walkthrough:**";
            "- You asked for the derivative of `" ++ problem ++ "`.";
            "- I applied the derivative rules and simplified the result:";
            block])
  else if sp.is_Integral expr || Py.contains "integrate(" problem then
    integral <- evaluate (sp.is_Integral expr) expr problem ;;
    shown <- sp.pretty integral ;;
    block <- _latex_block (obj_arg integral) ;;
    ret (Integral,
         Py.join (nl ++ nl)
           [friendly_line; "**Short answer:** " ++ shown ++ " + C"; EmptyString;
            "**Walkthrough:**";
            "- You requested an integral for `" ++ problem ++ "`.";
            "- I computed the antiderivative:";
            block;
            "- (Remember to add the constant of integration: `+ C`)"])
  else if sp.is_Equality expr then
    l <- sp.lhs expr ;;
    r <- sp.rhs expr ;;
    difference <- sp.sub l r ;;
    canonical <- sp.simplify difference ;;
    eq0 <- sp.Eq canonical (sp.Integer 0) ;;
    block <- _latex_block (obj_arg eq0) ;;
    let parts :=
      [friendly_line;
       "**Short answer:** I solved the equation and listed the solution(s) below.";
       EmptyString; "**Walkthrough:**";
       "- I rewrote the equation in canonical form (left - right = 0):";
       block] in
    sol <- sp.solve_dict expr ;;
    if is_nil sol then
      ret (Equality, Py.join (nl ++ nl) (parts ++ ["- I couldn't find a solution."])%list)
    else
      found <- mapM (fun item : Expr * Expr =>
                       let (var, val) := item in
                       name <- sp.str var ;;
                       eq <- sp.Eq var val ;;
                       tex <- _latex_block (obj_arg eq) ;;
                       ret ["- Solution: " ++ name ++ " ="; tex])
                    (concat sol) ;;
      ret (Equality, Py.join (nl ++ nl) (parts ++ concat found)%list)
  else
    vars_list <- sp.free_symbols expr ;;
    primary_var <- first_item vars_list ;;
    name <- sp.str primary_var ;;
    factored <- factor_lines expr ;;
    let parts :=
      ([friendly_line;
       "**Short answer:** I treated this as an equation `... = 0` and tried to solve for the main variable.";
       EmptyString; "**Walkthrough:**";
       ("- Primary variable chosen: `" ++ name ++ "`")%string]
      ++ factored ++ ["- I solved the equation:"])%list in
    eq0 <- sp.Eq expr (sp.Integer 0) ;;
    block <- _latex_block (obj_arg eq0) ;;
    eq0' <- sp.Eq expr (sp.Integer 0) ;;
    sol_values <- sp.solve eq0' primary_var ;;
    found <- truthy sol_values ;;
    if negb found then
      simplified <- sp.simplify expr ;;
      tex <- _latex_block (obj_arg simplified) ;;
      ret (ExpressionWithSymbols,
           Py.join (nl ++ nl)
             (parts ++ [block;
                        "- I couldn't find algebraic roots; here is the simplified expression:";
                        tex])%list)
    else
      match sol_values with
      | sp.a_list values =>
          shown <- mapM (fun v =>
                           eq <- sp.Eq primary_var v ;;
                           tex <- _latex_block (obj_arg eq) ;;
                           ret ["- Solution:"; tex]) values ;;
          ret (ExpressionWithSymbols,
               Py.join (nl ++ nl) (parts ++ [block] ++ concat shown)%list)
      | sp.an_object value =>
          eq <- sp.Eq primary_var value ;;
          tex <- _latex_block (obj_arg eq) ;;
          ret (ExpressionWithSymbols,
               Py.join (nl ++ nl) (parts ++ [block; "- Solution:"; tex])%list)
      end.

(** The function: an [Exception] that leaves the [try] becomes the
    apology; anything else that is raised goes on to the caller. *)
Definition generate_explanation (problem : string) : exc string :=
  try_except (found <- explain_try problem ;; ret (snd found))
             (fun e => ret (sorry_line ++ nl ++ nl ++ "Error: " ++ e)).

End Explanation.

(** ** [frontend/streamlit_app.py]: what the Solve button computes *)

(** What the click handler can tell about the value the solver call
    produced.  A list or tuple of two or more items is known by [str()] of
    its first two items; any value that is neither such a sequence, nor a
    string, nor [None] is known by what [str()] makes of it. *)
Inductive raw_value : Type :=
| raw_sequence (first second : string)
| raw_str (s : string)
| raw_None
| raw_other (text : exc string).

Definition empties : list string :=
  ["[]"; "()"; "Tuple()"; "None"; "NoneType"].

Definition _is_empty (s : option string) : bool :=
  match s with
  | None => true
  | Some t =>
      let s2 := Py.strip t in
      if String.eqb s2 EmptyString then true
      else existsb (String.eqb s2) empties
  end.

(** [if s:] for a string *)
Definition nonempty (s : string) : bool := negb (String.eqb s EmptyString).

Section Frontend.

Context {Expr : Type} {cas : sp.CAS Expr}.

Definition fallback_try (problem_str : string) : exc (string * string) :=
  expr <- sp.sympify problem_str ;;
  if sp.is_Derivative expr || Py.contains "diff(" problem_str then
    deriv <- evaluate (sp.is_Derivative expr) expr problem_str ;;
    shown <- sp.pretty deriv ;;
    tex <- sp.latex deriv ;;
    ret (shown, tex)
  else if sp.is_Integral expr || Py.contains "integrate(" problem_str then
    integral <- evaluate (sp.is_Integral expr) expr problem_str ;;
    shown <- sp.pretty integral ;;
    tex <- sp.latex integral ;;
    ret (shown ++ " + C", tex ++ " + C")
  else
    symbols <- sp.free_symbols expr ;;
    if is_nil symbols then
      simplified <- sp.simplify expr ;;
      val <- sp.N simplified ;;
      shown <- sp.pretty val ;;
      tex <- sp.latex val ;;
      ret (shown, tex)
    else
      vars_list <- sp.free_symbols expr ;;
      let simplify_it :=
        simplified <- sp.simplify expr ;;
        shown <- sp.pretty simplified ;;
        tex <- sp.latex simplified ;;
        ret (shown, tex) in
      match vars_list with
      | [] => simplify_it
      | primary :: _ =>
          eq0 <- sp.Eq expr (sp.Integer 0) ;;
          sols <- sp.solve eq0 primary ;;
          found <- truthy sols ;;
          if found then
            match sols with
            | sp.a_list values =>
                display_parts <- mapM (fun s =>
                                         name <- sp.str primary ;;
                                         shown <- sp.pretty s ;;
                                         ret (name ++ " = " ++ shown)) values ;;
                latex_parts <- mapM (fun s =>
                                       eq <- sp.Eq primary s ;;
                                       sp.latex eq) values ;;
                ret (Py.join ", " display_parts, Py.join "\; , \; " latex_parts)
            | sp.an_object value =>
                name <- sp.str primary ;;
                shown <- sp.pretty value ;;
                eq <- sp.Eq primary value ;;
                tex <- sp.latex eq ;;
                ret (name ++ " = " ++ shown, tex)
            end
          else simplify_it
      end.

Definition _sympy_fallback (problem_str : string) : exc (string * string) :=
  try_except (fallback_try problem_str)
             (fun e => ret ("Error during fallback: " ++ e,
                            "\text{Error during fallback}")).

(** The two strings the page goes on to render, and how many times
    [_sympy_fallback] was called to get them. *)
Record shown_answer : Type := {
  display_text : string;
  latex_text : string;
  fallback_calls : nat
}.

(** The handler's first step, "normalize into display_text, latex_text":
    the two strings it settles on and how many times it has called the
    fallback so far. *)
Definition first_pass (raw : raw_value) (problem : string)
  : exc (string * string * nat) :=
  let from_fallback :=
    answer <- _sympy_fallback problem ;;
    ret (fst answer, snd answer, 1) in
  match raw with
  | raw_sequence first second => ret (first, second, 0)
  | raw_str s => ret (s, EmptyString, 0)
  | raw_None => from_fallback
  | raw_other text =>
      try_except
        (s <- text ;;
         if nonempty s && negb (_is_empty (Some s)) then ret (s, EmptyString, 0)
         else from_fallback)
        (fun _ => from_fallback)
  end.

(** Its second step: [if _is_empty(display_text) or _is_empty(latex_text)]. *)
Definition second_pass (display latex : string) (calls : nat) (problem : string)
  : exc shown_answer :=
  if _is_empty (Some display) || _is_empty (Some latex) then
    answer <- _sympy_fallback problem ;;
    let (fb_display, fb_latex) := answer in
    if nonempty fb_display && negb (_is_empty (Some fb_display))
    then ret {| display_text := fb_display; latex_text := fb_latex;
                fallback_calls := S calls |}
    else ret {| display_text := display; latex_text := latex;
                fallback_calls := S calls |}
  else ret {| display_text := display; latex_text := latex;
              fallback_calls := calls |}.

(** The handler from the call of the solver to the last use of the
    fallback.  [outcome] is what calling the solver on [problem] did:
    return a value or raise. *)
Definition normalise (outcome : exc raw_value) (problem : string)
  : exc shown_answer :=
  raw <- try_except outcome
           (fun e => ret (raw_str ("Error: solver raised exception: " ++ e))) ;;
  settled <- first_pass raw problem ;;
  let '(display, latex, calls) := settled in
  second_pass display latex calls problem.

(** What the imported solver hands to the handler: its pair of strings. *)
Definition solver_outcome (problem : string) : exc raw_value :=
  answer <- solve_math_problem problem ;;
  ret (raw_sequence (fst answer) (snd answer)).

(** [if st.button("Solve"):] with the imported solver: a blank problem only
    gets a warning. *)
Definition on_solve (problem : string) : exc (option shown_answer) :=
  if negb (nonempty problem) || negb (nonempty (Py.strip problem)) then ret None
  else
    shown <- normalise (solver_outcome problem) problem ;;
    ret (Some shown).

End Frontend.

(** ** [app.py] *)

(** [repr] of a string and [str] of a pair of strings, as [print] needs
    them for a tuple. *)
Module PyRepr.

Definition hex_digit (n : nat) : ascii :=
  match n with
  | 0 => "0" | 1 => "1" | 2 => "2" | 3 => "3" | 4 => "4" | 5 => "5"
  | 6 => "6" | 7 => "7" | 8 => "8" | 9 => "9" | 10 => "a" | 11 => "b"
  | 12 => "c" | 13 => "d" | 14 => "e" | _ => "f"
  end%char.

Fixpoint has_char (q : ascii) (s : string) : bool :=
  match s with
  | EmptyString => false
  | String c s' => Ascii.eqb c q || has_char q s'
  end.

(** Double quotes are chosen only when the text has a single quote and no
    double quote. *)
Definition dquote : ascii := "034"%char.

Definition quote_for (s : string) : ascii :=
  if has_char "'" s && negb (has_char dquote s) then dquote else "'"%char.

Definition escape_char (quote c : ascii) : string :=
  let n := nat_of_ascii c in
  if Ascii.eqb c quote || Ascii.eqb c "\" then String "\" (String c EmptyString)
  else if Ascii.eqb c "009" then "\t"
  else if Ascii.eqb c "010" then "\n"
  else if Ascii.eqb c "013" then "\r"
  else if (n <? 32)%nat || (n =? 127)%nat
       then String "\" (String "x" (String (hex_digit (n / 16))
                                      (String (hex_digit (n mod 16)) EmptyString)))
  else String c EmptyString.

Fixpoint escape (quote : ascii) (s : string) : string :=
  match s with
  | EmptyString => EmptyString
  | String c s' => escape_char quote c ++ escape quote s'
  end.

(** [repr(s)] for a text whose characters above U+007F are printable:
    Python keeps those as they are, and so are their bytes here. *)
Definition repr (s : string) : string :=
  let q := quote_for s in
  String q (escape q s ++ String q EmptyString).

(** [str((a, b))] *)
Definition str_pair (p : string * string) : string :=
  "(" ++ repr (fst p) ++ ", " ++ repr (snd p) ++ ")".

(** What [print(a, b)] writes. *)
Definition print2 (a b : string) : string := a ++ " " ++ b ++ nl.

End PyRepr.

Section CommandLine.

Context {Expr : Type} {cas : sp.CAS Expr}.

Definition prompt : string := "Enter your math problem: ".

(** What the program writes to standard output after [input] has shown
    its prompt and read the line [problem]. *)
Definition main (problem : string) : exc string :=
  solution <- solve_math_problem problem ;;
  explanation <- generate_explanation problem ;;
  ret (PyRepr.print2 (nl ++ "Solution:") (PyRepr.str_pair solution)
       ++ PyRepr.print2 (nl ++ "Explanation:") explanation).

End CommandLine.

(** ** A stand-in for SymPy

    A small computer-algebra system for the concrete runs below.  On the
    inputs of its [sympify] table it answers as SymPy does (parsing
    evaluates [diff] and [integrate] on the spot, [sp.N] turns an integer
    into a 15-digit float, [str] shows all 15 digits of a float and
    [latex] strips the trailing zeros); elsewhere it is just some CAS.
    Every other text is refused with an [Exception] whose message is the
    stand-in's own, the first line of what SymPy says. *)
Module SymPyFragment.

Inductive expr : Type :=
| integer (n : Z)
| float (n : Z)
| symbol (name : string)
| sqrt (arg : expr)
| minus (a b : expr)
| equation (l r : expr).

Fixpoint expr_eqb (a b : expr) : bool :=
  match a, b with
  | integer m, integer n => Z.eqb m n
  | float m, float n => Z.eqb m n
  | symbol s, symbol t => String.eqb s t
  | sqrt x, sqrt y => expr_eqb x y
  | minus x1 x2, minus y1 y2 => expr_eqb x1 y1 && expr_eqb x2 y2
  | equation x1 x2, equation y1 y2 => expr_eqb x1 y1 && expr_eqb x2 y2
  | _, _ => false
  end.

Definition x : expr := symbol "x".

Definition refuse {A} (text : string) : exc A :=
  raise (Exception
           ("Sympify of expression 'could not parse " ++ PyRepr.repr text
            ++ "' failed, because of exception being raised:")).

(** A text whose evaluation by the parser leaves the interpreter:
    [SystemExit] is not an [Exception], and its message is empty. *)
Definition leaving : string := "exec('raise SystemExit')".

Definition parse_table : list (string * expr) :=
  [ ("2+2", integer 4);
    ("x", x);
    ("diff(x, x)", integer 1);
    ("diff(Symbol('')*x, x)", symbol EmptyString);
    ("integrate(1, x)", x);
    ("Eq(x, 2)", equation x (integer 2));
    ("Eq(sqrt(x), -1)", equation (sqrt x) (integer (-1)));
    ("Eq(sqrt(x), -diff(x, x))", equation (sqrt x) (integer (-1))) ].

Fixpoint lookup (text : string) (table : list (string * expr)) : option expr :=
  match table with
  | [] => None
  | (key, e) :: rest => if String.eqb key text then Some e else lookup text rest
  end.

Definition sympify (text : string) : exc expr :=
  if String.eqb text leaving then raise (BaseException EmptyString)
  else
    match lookup text parse_table with
    | Some e => ret e
    | None => refuse text
    end.

Fixpoint free_symbols (e : expr) : list expr :=
  match e with
  | integer _ | float _ => []
  | symbol _ => [e]
  | sqrt a => free_symbols a
  | minus a b | equation a b => free_symbols a ++ free_symbols b
  end.

Definition is_Number (e : expr) : bool :=
  match e with
  | integer _ | float _ => true
  | _ => false
  end.

Definition is_Equality (e : expr) : bool :=
  match e with
  | equation _ _ => true
  | _ => false
  end.

(** [sp.N]; the stand-in has floats for the integers of up to 15 digits
    only and refuses the others. *)
Definition N (e : expr) : exc expr :=
  match e with
  | integer n =>
      if (Z.abs n <? 10 ^ 15)%Z then ret (float n)
      else raise (Exception "the stand-in has no float for this integer")
  | _ => ret e
  end.

Definition sub (a b : expr) : expr :=
  match a, b with
  | integer m, integer n => integer (m - n)
  | _, _ => minus a b
  end.

Definition no_attribute {A} (name : string) : exc A :=
  raise (Exception ("object has no attribute '" ++ name ++ "'")).

Definition lhs (e : expr) : exc expr :=
  match e with
  | equation l _ => ret l
  | _ => no_attribute "lhs"
  end.

Definition rhs (e : expr) : exc expr :=
  match e with
  | equation _ r => ret r
  | _ => no_attribute "rhs"
  end.

Definition not_implemented {A} : exc A :=
  raise (Exception "no algorithms are implemented to solve this equation").

(** Roots of [symbol = value] and of [sqrt(symbol) = n]; the square root
    is never negative. *)
Definition roots (e : expr) : exc (expr * list expr) :=
  match e with
  | equation (symbol s) (integer n) => ret (symbol s, [integer n])
  | equation (sqrt (symbol s)) (integer n) =>
      ret (symbol s, if (n <? 0)%Z then [] else [integer (n * n)])
  | _ => not_implemented
  end.

Definition solve_dict (e : expr) : exc (list (list (expr * expr))) :=
  found <- roots e ;;
  ret (map (fun v => [(fst found, v)]) (snd found)).

Definition solve (e var : expr) : exc (sp.solutions expr) :=
  found <- roots e ;;
  if expr_eqb (fst found) var then ret (sp.a_list (snd found))
  else ret (sp.a_list []).

Definition decimal (n : Z) : string := NilEmpty.string_of_int (Z.to_int n).

Fixpoint zeros (k : nat) : string :=
  match k with
  | O => EmptyString
  | S k' => String "0" (zeros k')
  end.

(** A float with an integer value of up to 15 digits, to 15 significant
    digits. *)
Definition float_str (n : Z) : string :=
  if (n =? 0)%Z then "0"
  else decimal n ++ "." ++ zeros (15 - String.length (decimal (Z.abs n))).

Definition float_latex (n : Z) : string :=
  if (n =? 0)%Z then "0" else decimal n ++ ".0".

Fixpoint str (e : expr) : string :=
  match e with
  | integer n => decimal n
  | float n => float_str n
  | symbol s => s
  | sqrt a => "sqrt(" ++ str a ++ ")"
  | minus a b => str a ++ " - " ++ str b
  | equation l r => "Eq(" ++ str l ++ ", " ++ str r ++ ")"
  end.

Fixpoint pretty (e : expr) : string :=
  match e with
  | integer n => decimal n
  | float n => float_str n
  | symbol s => s
  | sqrt a => "√" ++ pretty a
  | minus a b => pretty a ++ " - " ++ pretty b
  | equation l r => pretty l ++ " = " ++ pretty r
  end.

Fixpoint latex (e : expr) : string :=
  match e with
  | integer n => decimal n
  | float n => float_latex n
  | symbol s => s
  | sqrt a => "\sqrt{" ++ latex a ++ "}"
  | minus a b => latex a ++ " - " ++ latex b
  | equation l r => latex l ++ " = " ++ latex r
  end.

#[export] Instance cas : sp.CAS expr := {|
  sp.sympify := sympify;
  sp.is_Derivative := fun _ => false;
  sp.is_Integral := fun _ => false;
  sp.is_Equality := is_Equality;
  sp.is_Number := is_Number;
  sp.doit := fun e => ret e;
  sp.free_symbols := fun e => ret (free_symbols e);
  sp.simplify := fun e => ret e;
  sp.factor := fun e => ret e;
  sp.N := N;
  sp.Integer := integer;
  sp.Eq := fun l r => ret (equation l r);
  sp.lhs := lhs;
  sp.rhs := rhs;
  sp.sub := fun a b => ret (sub a b);
  sp.differs := fun a b => negb (expr_eqb a b);
  sp.solve_dict := solve_dict;
  sp.solve := solve;
  sp.truth := fun _ => ret true;
  sp.pretty := fun e => ret (pretty e);
  sp.latex := fun e => ret (latex e);
  sp.str := fun e => ret (str e)
|}.

(** The same system with the pretty-printer that draws in ASCII, as
    [sp.pretty] does where Unicode is not available: a square root takes
    two lines. *)
Fixpoint ascii_pretty (e : expr) : string :=
  match e with
  | integer n => decimal n
  | float n => float_str n
  | symbol s => s
  | sqrt a => "  ___" ++ nl ++ "\/ " ++ ascii_pretty a ++ " "
  | minus a b => ascii_pretty a ++ " - " ++ ascii_pretty b
  | equation l r => ascii_pretty l ++ " = " ++ ascii_pretty r
  end.

Definition ascii_art : sp.CAS expr := {|
  sp.sympify := sympify;
  sp.is_Derivative := fun _ => false;
  sp.is_Integral := fun _ => false;
  sp.is_Equality := is_Equality;
  sp.is_Number := is_Number;
  sp.doit := fun e => ret e;
  sp.free_symbols := fun e => ret (free_symbols e);
  sp.simplify := fun e => ret e;
  sp.factor := fun e => ret e;
  sp.N := N;
  sp.Integer := integer;
  sp.Eq := fun l r => ret (equation l r);
  sp.lhs := lhs;
  sp.rhs := rhs;
  sp.sub := fun a b => ret (sub a b);
  sp.differs := fun a b => negb (expr_eqb a b);
  sp.solve_dict := solve_dict;
  sp.solve := solve;
  sp.truth := fun _ => ret true;
  sp.pretty := fun e => ret (ascii_pretty e);
  sp.latex := fun e => ret (latex e);
  sp.str := fun e => ret (str e)
|}.


End SymPyFragment.


(** ** [frontend/streamlit_app.py]: what the page shows after a click *)

Module PyText.

(** [c.lower()] on ASCII letters; no other character lowers to one of
    the letters of ["error"], the only word the page compares with. *)
Definition lower_char (c : ascii) : ascii :=
  let n := nat_of_ascii c in
  if ((65 <=? n) && (n <=? 90))%nat then ascii_of_nat (n + 32) else c.

Fixpoint lower (s : string) : string :=
  match s with
  | EmptyString => EmptyString
  | String c s' => String (lower_char c) (lower s')
  end.

End PyText.

(** The Streamlit calls of the click handler.  Streamlit itself is
    outside the model: a call that returns is recorded, and whether a
    call raises instead is Streamlit's matter ([st_raises]).
    [st_markdown_html] is [st.markdown] with [unsafe_allow_html=True],
    [st_write_pair] is [st.write] with two arguments and [st_expander]
    opens the [with st.expander(...)] block. *)
#[warnings="-register-all"]
Inductive st_call : Type :=
| st_warning (body : string)
| st_subheader (body : string)
| st_markdown (body : string)
| st_markdown_html (body : string)
| st_write (body : string)
| st_write_pair (label value : string)
| st_latex (body : string)
| st_expander (label : string).

Class Streamlit : Type := {
  st_raises : st_call -> option exception
}.

(** A Streamlit none of whose calls raises. *)
Definition quiet : Streamlit := {| st_raises := fun _ => None |}.

(** A piece of the handler that draws on the page: the calls it made, in
    order, and how it ended.  The calls made before something is raised
    stay on the page. *)
Definition page (A : Type) : Type := (list st_call * exc A)%type.

Definition page_ret {A} (a : A) : page A := ([], inr a).

Definition page_bind {A B} (c : page A) (k : A -> page B) : page B :=
  match c with
  | (calls, inr a) => (calls ++ fst (k a), snd (k a))%list
  | (calls, inl e) => (calls, inl e)
  end.

#[global] Instance Monad_page : Monad page :=
  {| ret := @page_ret; bind := @page_bind |}.

(** [try: c  except Exception: h] on the page. *)
Definition page_try {A} (c : page A) (h : page A) : page A :=
  match c with
  | (calls, inl (Exception _)) => (calls ++ fst h, snd h)%list
  | _ => c
  end.

(** Code that does not draw. *)
Definition lift {A} (c : exc A) : page A := ([], c).

Section Page.

Context {Expr : Type} {cas : sp.CAS Expr} {streamlit : Streamlit}.

Definition call (c : st_call) : page unit :=
  match st_raises c with
  | Some e => ([], inl e)
  | None => ([c], inr tt)
  end.

(** [display_text.lower().startswith("error")] *)
Definition looks_like_error (display : string) : bool :=
  Py.startswith (PyText.lower display) "error".

(** From "Render output" to the debug expander.  [raw_repr] is
    [repr(raw)]. *)
Definition render (problem raw_repr display latex : string) : page unit :=
  call (st_subheader "✅ Answer") ;;
  (if nonempty display && negb (looks_like_error display)
   then call (st_markdown ("**" ++ display ++ "**"))
   else call (st_markdown ("**" ++ display ++ "**"))) ;;
  (if nonempty latex && negb (_is_empty (Some latex))
      && negb (looks_like_error display)
   then page_try (call (st_write EmptyString) ;;
                  call (st_markdown "**Formatted:**") ;;
                  call (st_latex latex))
                 (ret tt)
   else ret tt) ;;
  call (st_markdown "---") ;;
  call (st_subheader "💬 Quick note") ;;
  (if looks_like_error display
   then call (st_write "I couldn't parse that input. Try a simpler form like `2+2` or `x**2 - 4`.")
   else call (st_write "Above is the direct answer. Scroll down for a friendly walkthrough of steps.")) ;;
  call (st_markdown "---") ;;
  call (st_subheader "📝 Walkthrough") ;;
  page_try (explanation_md <- lift (generate_explanation problem) ;;
            if nonempty explanation_md && negb (_is_empty (Some explanation_md))
            then call (st_markdown_html explanation_md)
            else call (st_write "No walkthrough available for this input."))
           (call (st_write "Couldn't produce a walkthrough for this input.")) ;;
  call (st_expander "Show debug info") ;;
  call (st_write_pair "Raw solver return:" raw_repr) ;;
  call (st_write_pair "display_text:" display) ;;
  call (st_write_pair "latex_text:" latex).



End Page.

(** * Properties *)

(** ** The built-ins on small inputs *)

Example strip_example : Py.strip "  Tuple() " = "Tuple()".
Proof. reflexivity. Qed.

Example splitlines_example :
  Py.splitlines ("a" ++ String "013" (String "010" "b") ++ String "010" EmptyString)
  = ["a"; "b"].
Proof. reflexivity. Qed.

(** U+00A0 before the word and U+3000 after it. *)
Example strip_unicode_example :
  Py.strip (String "194" (String "160" "None")
            ++ String "227" (String "128" (String "128" EmptyString)))
  = "None".
Proof. reflexivity. Qed.

(** U+2028 between two lines. *)
Example splitlines_unicode_example :
  Py.splitlines ("a" ++ String "226" (String "128" (String "168" "b")))
  = ["a"; "b"].
Proof. reflexivity. Qed.

Example replace_example : Py.replace "a}b}}" "}" "\}" = "a\}b\}\}".
Proof. reflexivity. Qed.

Example replace_example2 : Py.replace "aaa" "aa" "b" = "ba".
Proof. reflexivity. Qed.

Example repr_plain : PyRepr.repr "4.0" = "'4.0'".
Proof. reflexivity. Qed.

Example repr_quote :
  PyRepr.repr ("it's" ++ nl)
  = String PyRepr.dquote ("it's\n" ++ String PyRepr.dquote EmptyString).
Proof. reflexivity. Qed.

(** ** The exception monad *)

Lemma bind_returned {A B} (a : A) (f : A -> exc B) :
  (x <- inr a ;; f x) = f a.
Proof. reflexivity. Qed.

Lemma bind_raised {A B} (e : exception) (f : A -> exc B) :
  (x <- inl e ;; f x) = inl e.
Proof. reflexivity. Qed.

Lemma bind_inr_inv {A B} (c : exc A) (f : A -> exc B) (b : B) :
  (x <- c ;; f x) = inr b -> exists a, c = inr a /\ f a = inr b.
Proof.
  destruct c as [e | a]; [discriminate |].
  intros H. exists a. split; [reflexivity | exact H].
Qed.

Lemma ret_inr_inv {A} (a b : A) : (ret a : exc A) = inr b -> a = b.
Proof. intros H. injection H as H. exact H. Qed.

(** Peels the binds of a computation that is known to return. *)
Ltac returns H :=
  repeat (let a := fresh "v" in
          let E := fresh "E" in
          apply bind_inr_inv in H; destruct H as (a & E & H)).

Lemma mapM_length {A B} (f : A -> exc B) (l : list A) (r : list B) :
  mapM f l = inr r -> length r = length l.
Proof.
  revert r. induction l as [| a l IH]; intros r H; simpl in H.
  - apply ret_inr_inv in H. subst r. reflexivity.
  - returns H. apply ret_inr_inv in H. subst r. simpl. f_equal. auto.
Qed.

Lemma mapM_head {A B} (f : A -> exc B) (a : A) (l : list A) (r : list B) :
  mapM f (a :: l) = inr r -> exists b r', r = b :: r' /\ f a = inr b.
Proof.
  intros H. simpl in H. returns H. apply ret_inr_inv in H. subst r. eauto.
Qed.

(** ** Strings *)

Lemma append_empty (a b : string) :
  a ++ b = EmptyString -> a = EmptyString /\ b = EmptyString.
Proof. destruct a; simpl; [auto | discriminate]. Qed.

Lemma startswith_app (p s : string) : Py.startswith (p ++ s) p = true.
Proof.
  induction p as [| c p IH]; simpl; [reflexivity |].
  rewrite Ascii.eqb_refl. exact IH.
Qed.

Lemma endswith_refl (s : string) : Py.endswith s s = true.
Proof. destruct s; simpl; rewrite ?Ascii.eqb_refl, ?String.eqb_refl; reflexivity. Qed.

Lemma endswith_app (a suf : string) : Py.endswith (a ++ suf) suf = true.
Proof.
  induction a as [| c a IH]; simpl.
  - apply endswith_refl.
  - rewrite IH. apply orb_true_r.
Qed.

(** Escaping the braces of an error message leaves its ["Error: "] label
    alone. *)
Lemma replace_after_label (e : string) :
  Py.replace ("Error: " ++ e) "}" "\}" = "Error: " ++ Py.replace e "}" "\}".
Proof. reflexivity. Qed.


(** Takes apart a computation that is known to return: binds, tests and
    case distinctions, down to the [ret] that produced the value. *)
Ltac crunch H :=
  repeat first
    [ discriminate H
    | apply ret_inr_inv in H
    | apply bind_inr_inv in H; destruct H as (? & ? & H)
    | match type of H with
      | (if ?c then _ else _) = inr _ => destruct c eqn:?
      | (let (_, _) := ?p in _) = inr _ => destruct p eqn:?
      | match ?x with _ => _ end = inr _ => destruct x eqn:?
      end ].


(** ** Whitespace *)

Lemma lstrip_eq (s : string) :
  Py.lstrip s
  = match Py.after_space s with
    | Some rest => Py.lstrip rest
    | None => s
    end.
Proof.
  destruct s as [| b1 [| b2 [| b3 s3]]];
    repeat (cbn [Py.lstrip Py.after_space];
            match goal with
            | |- context [if ?c then _ else _] => destruct c
            end);
    reflexivity.
Qed.

Lemma blank_eq (s : string) :
  Py.blank s
  = match s with
    | EmptyString => true
    | String _ _ =>
        match Py.after_space s with
        | Some rest => Py.blank rest
        | None => false
        end
    end.
Proof.
  destruct s as [| b1 [| b2 [| b3 s3]]];
    repeat (cbn [Py.blank Py.after_space];
            match goal with
            | |- context [if ?c then _ else _] => destruct c
            end);
    reflexivity.
Qed.

Lemma after_space_shorter (s rest : string) :
  Py.after_space s = Some rest -> String.length rest < String.length s.
Proof.
  destruct s as [| b1 [| b2 [| b3 s3]]]; cbn [Py.after_space];
    repeat match goal with
           | |- context [if ?c then _ else _] => destruct c
           end;
    intros H; try discriminate H; injection H as <-; cbn; lia.
Qed.

(** Induction along the whitespace characters a text starts with. *)
Lemma space_ind (P : string -> Prop) :
  (forall s, (forall rest, Py.after_space s = Some rest -> P rest) -> P s) ->
  forall s, P s.
Proof.
  intros step s. remember (String.length s) as n eqn:Hn. revert s Hn.
  induction n as [n IH] using lt_wf_ind. intros s ->.
  apply step. intros rest Hrest.
  apply (IH (String.length rest)); [| reflexivity].
  apply after_space_shorter. exact Hrest.
Qed.

Lemma after_space_app (a rest w : string) :
  Py.after_space a = Some rest -> Py.after_space (a ++ w) = Some (rest ++ w).
Proof.
  destruct a as [| b1 [| b2 [| b3 s3]]]; cbn [Py.after_space append];
    repeat match goal with
           | |- context [if ?c then _ else _] => destruct c
           end;
    intros H; try discriminate H; injection H as <-; reflexivity.
Qed.

Lemma blank_app (a w : string) :
  Py.blank a = true -> Py.blank (a ++ w) = Py.blank w.
Proof.
  induction a as [a IH] using space_ind. intros Ha.
  destruct a as [| b a']; [reflexivity |].
  rewrite blank_eq in Ha.
  destruct (Py.after_space (String b a')) as [rest |] eqn:Hrest;
    [| discriminate Ha].
  change (String b a' ++ w) with (String b (a' ++ w)).
  rewrite blank_eq.
  change (String b (a' ++ w)) with (String b a' ++ w).
  rewrite (after_space_app _ _ w Hrest).
  apply (IH rest eq_refl Ha).
Qed.

Lemma lstrip_head (s : string) : Py.after_space (Py.lstrip s) = None.
Proof.
  induction s as [s IH] using space_ind.
  rewrite lstrip_eq.
  destruct (Py.after_space s) as [rest |] eqn:Hrest; [apply IH; reflexivity |].
  exact Hrest.
Qed.

Lemma blank_lstrip (s : string) : Py.blank (Py.lstrip s) = Py.blank s.
Proof.
  induction s as [s IH] using space_ind.
  rewrite lstrip_eq, (blank_eq s).
  destruct (Py.after_space s) as [rest |] eqn:Hrest.
  - rewrite (IH rest eq_refl).
    destruct s; [discriminate Hrest | reflexivity].
  - destruct s; [reflexivity |]. rewrite blank_eq, Hrest. reflexivity.
Qed.

Lemma rstrip_split (s : string) :
  exists w, s = Py.rstrip s ++ w /\ Py.blank w = true.
Proof.
  induction s as [| b s IH]; [exists EmptyString; split; reflexivity |].
  cbn [Py.rstrip]. destruct (Py.blank (String b s)) eqn:Hb.
  - exists (String b s). split; [reflexivity | exact Hb].
  - destruct IH as (w & Hs & Hw). exists w. split; [| exact Hw].
    cbn [append]. rewrite <- Hs. reflexivity.
Qed.

Lemma rstrip_empty_iff (s : string) :
  Py.rstrip s = EmptyString <-> Py.blank s = true.
Proof.
  destruct s as [| b s]; [split; reflexivity |].
  cbn [Py.rstrip]. destruct (Py.blank (String b s)); split;
    intros H; try reflexivity; discriminate H.
Qed.

Lemma rstrip_idempotent (s : string) : Py.rstrip (Py.rstrip s) = Py.rstrip s.
Proof.
  induction s as [| b s IH]; [reflexivity |].
  cbn [Py.rstrip]. destruct (Py.blank (String b s)) eqn:Hb; [reflexivity |].
  cbn [Py.rstrip]. rewrite IH.
  destruct (Py.blank (String b (Py.rstrip s))) eqn:Hb'; [| reflexivity].
  exfalso. destruct (rstrip_split s) as (w & Hs & Hw).
  pose proof (blank_app (String b (Py.rstrip s)) w Hb') as Happ.
  cbn [append] in Happ. rewrite <- Hs, Hw, Hb in Happ. discriminate Happ.
Qed.

Lemma strip_idempotent (s : string) : Py.strip (Py.strip s) = Py.strip s.
Proof.
  unfold Py.strip.
  assert (Py.lstrip (Py.rstrip (Py.lstrip s)) = Py.rstrip (Py.lstrip s)) as ->.
  { rewrite lstrip_eq.
    destruct (Py.after_space (Py.rstrip (Py.lstrip s))) as [rest |] eqn:Hrest;
      [| reflexivity].
    exfalso. destruct (rstrip_split (Py.lstrip s)) as (w & Hs & _).
    apply (after_space_app _ _ w) in Hrest.
    rewrite <- Hs, lstrip_head in Hrest. discriminate Hrest. }
  apply rstrip_idempotent.
Qed.

Lemma strip_empty_iff (s : string) :
  Py.strip s = EmptyString <-> Py.has_visible s = false.
Proof.
  unfold Py.strip, Py.has_visible.
  rewrite rstrip_empty_iff, blank_lstrip, negb_false_iff. reflexivity.
Qed.

Lemma strip_nonempty (s : string) :
  Py.has_visible s = true -> Py.strip s <> EmptyString.
Proof.
  intros Hv Hs. apply strip_empty_iff in Hs. congruence.
Qed.

Lemma after_space_visible (c : ascii) (s : string) :
  Py.starts_no_space c = true -> Py.after_space (String c s) = None.
Proof.
  unfold Py.starts_no_space. rewrite negb_true_iff. intros H.
  repeat (apply orb_false_elim in H; destruct H as [H ?H]).
  destruct s as [| b2 [| b3 s3]];
    unfold Py.after_space, Py.space1, Py.space2, Py.space3;
    repeat match goal with
           | E : _ = false |- _ => rewrite E; clear E
           end; reflexivity.
Qed.

Lemma strip_keeps_head (c : ascii) (s : string) :
  Py.starts_no_space c = true -> exists r, Py.strip (String c s) = String c r.
Proof.
  intros Hc. unfold Py.strip.
  rewrite lstrip_eq, (after_space_visible c s Hc).
  cbn [Py.rstrip]. rewrite blank_eq, (after_space_visible c s Hc). eauto.
Qed.

Section SolverProperties.

Context {Expr : Type} {cas : sp.CAS Expr}.

(** *** Where exceptions go *)


Lemma solve_error_is_raised (problem : string) (e : exception) (expr : Expr) :
  sp.sympify problem = inr expr ->
  sp.is_Derivative expr || Py.contains "diff(" problem = false ->
  sp.is_Integral expr || Py.contains "integrate(" problem = false ->
  sp.is_Equality expr = true ->
  sp.solve_dict expr = inl e ->
  solve_try problem = inl e.
Proof.
  intros Hp Hd Hi He Hs. unfold solve_try.
  rewrite Hp, bind_returned, Hd, Hi, He, Hs. reflexivity.
Qed.

Lemma evaluate_parsed (is_K : bool) (problem : string) (expr : Expr) :
  sp.sympify problem = inr expr ->
  evaluate is_K expr problem = sp.doit expr.
Proof.
  intros Hp. unfold evaluate. destruct is_K; [reflexivity |].
  rewrite Hp. reflexivity.
Qed.

Lemma latex_error_is_raised (problem shown : string) (e : exception)
    (expr deriv : Expr) :
  sp.sympify problem = inr expr ->
  sp.is_Derivative expr || Py.contains "diff(" problem = true ->
  sp.doit expr = inr deriv ->
  _sympy_to_display deriv = inr shown ->
  sp.latex deriv = inl e ->
  solve_try problem = inl e.
Proof.
  intros Hp Hd Hdo Hs Hl. unfold solve_try.
  rewrite Hp, bind_returned, Hd, (evaluate_parsed _ _ _ Hp), Hdo.
  rewrite bind_returned, Hs, bind_returned, Hl. reflexivity.
Qed.



(** C4: an input that passes the integral test (the parsed form is an
    integral node or the text contains ["integrate("]) without passing
    the derivative test before it, and on which nothing is raised, is
    handled as an integral, and both returned strings end with
    [" + C"]. *)
Theorem integral_answer_ends_with_C (problem : string) (expr : Expr)
    (shape : Shape) (display latex : string) :
  sp.sympify problem = inr expr ->
  sp.is_Derivative expr || Py.contains "diff(" problem = false ->
  sp.is_Integral expr || Py.contains "integrate(" problem = true ->
  solve_try problem = inr (shape, (display, latex)) ->
  shape = Integral
  /\ solve_math_problem problem = inr (display, latex)
  /\ Py.endswith display " + C" = true
  /\ Py.endswith latex " + C" = true.
Proof.
  intros Hp Hd Hi H.
  assert (solve_math_problem problem = inr (display, latex)) as Hanswer.
  { unfold solve_math_problem. rewrite H. reflexivity. }
  unfold solve_try in H. rewrite Hp, bind_returned, Hd, Hi in H.
  crunch H. injection H as <- <- <-.
  repeat split; auto using endswith_app.
Qed.


End SolverProperties.

Section ShapeProperties.

Context {Expr : Type} {cas : sp.CAS Expr}.

(** C5, amended: an input handled as an equation (it parses to an [Eq]
    node and neither the derivative test nor the integral test fires, so
    in particular its text contains neither ["diff("] nor ["integrate("])
    for which [solve] finds nothing gets exactly
    [("No solution", "\text{No solution}")]. *)
Theorem unsolvable_equation_answer (problem : string) (expr : Expr) :
  sp.sympify problem = inr expr ->
  sp.is_Derivative expr || Py.contains "diff(" problem = false ->
  sp.is_Integral expr || Py.contains "integrate(" problem = false ->
  sp.is_Equality expr = true ->
  sp.solve_dict expr = inr [] ->
  solve_try problem = inr (Equality, ("No solution", "\text{No solution}"))
  /\ solve_math_problem problem = inr ("No solution", "\text{No solution}").
Proof.
  intros Hp Hd Hi He Hs.
  assert (solve_try problem
          = inr (Equality, ("No solution", "\text{No solution}"))) as H.
  { unfold solve_try. rewrite Hp, bind_returned, Hd, Hi, He, Hs. reflexivity. }
  split; [exact H |].
  unfold solve_math_problem. rewrite H. reflexivity.
Qed.

(** C7, amended: on ["2+2"], parsed to a constant that is not a
    derivative, integral or equation node, the constant-expression block
    runs; the value is simplified and evaluated numerically with [sp.N],
    the display string is [str] of that number and the LaTeX string is
    its [latex] form. *)
Theorem two_plus_two_is_evaluated
    (four simplified numeric evaluated : Expr) (display latex : string) :
  sp.sympify "2+2" = inr four ->
  sp.is_Derivative four = false ->
  sp.is_Integral four = false ->
  sp.is_Equality four = false ->
  sp.free_symbols four = inr [] ->
  sp.simplify four = inr simplified ->
  sp.N simplified = inr numeric ->
  sp.is_Number numeric = true ->
  sp.N numeric = inr evaluated ->
  sp.str evaluated = inr display ->
  sp.latex numeric = inr latex ->
  solve_try "2+2" = inr (ConstantExpression, (display, latex))
  /\ solve_math_problem "2+2" = inr (display, latex).
Proof.
  intros Hp Hd Hi He Hf Hs Hn Hnum Hn' Hstr Hl.
  assert (solve_try "2+2" = inr (ConstantExpression, (display, latex))) as H.
  { unfold solve_try. rewrite Hp, bind_returned, Hd, Hi, He.
    cbn [Py.contains Py.startswith Ascii.eqb Bool.eqb andb orb].
    rewrite Hf, bind_returned. cbn [is_nil].
    rewrite Hs, bind_returned, Hn, bind_returned.
    unfold _sympy_to_display. rewrite Hnum, Hn', bind_returned, Hstr.
    cbn [try_except].
    rewrite bind_returned, Hl. reflexivity. }
  split; [exact H |].
  unfold solve_math_problem. rewrite H. reflexivity.
Qed.

(** The shape the solver settles on, as a function of the text, the
    parsed expression and its free symbols: the first test that fires
    decides, and the derivative test comes first. *)
Lemma solver_shape_order (problem : string) (expr : Expr)
    (symbols : list Expr) (shape : Shape) (answer : string * string) :
  sp.sympify problem = inr expr ->
  sp.free_symbols expr = inr symbols ->
  solve_try problem = inr (shape, answer) ->
  shape =
    if sp.is_Derivative expr || Py.contains "diff(" problem then Derivative
    else if sp.is_Integral expr || Py.contains "integrate(" problem then Integral
    else if sp.is_Equality expr then Equality
    else if is_nil symbols then ConstantExpression
    else ExpressionWithSymbols.
Proof.
  intros Hp Hf H. unfold solve_try in H.
  rewrite Hp, bind_returned in H.
  destruct (sp.is_Derivative expr || Py.contains "diff(" problem).
  { crunch H. congruence. }
  destruct (sp.is_Integral expr || Py.contains "integrate(" problem).
  { crunch H. congruence. }
  destruct (sp.is_Equality expr).
  { crunch H; congruence. }
  rewrite Hf, bind_returned in H.
  destruct (is_nil symbols); crunch H; congruence.
Qed.

(** The shape the explanation settles on: the constant test comes first. *)
Lemma explanation_shape_order (problem : string) (expr : Expr)
    (symbols : list Expr) (shape : Shape) (markdown : string) :
  sp.sympify problem = inr expr ->
  sp.free_symbols expr = inr symbols ->
  explain_try problem = inr (shape, markdown) ->
  shape =
    if is_nil symbols
       && negb (sp.is_Derivative expr || sp.is_Integral expr || sp.is_Equality expr)
    then ConstantExpression
    else if sp.is_Derivative expr || Py.contains "diff(" problem then Derivative
    else if sp.is_Integral expr || Py.contains "integrate(" problem then Integral
    else if sp.is_Equality expr then Equality
    else ExpressionWithSymbols.
Proof.
  intros Hp Hf H. unfold explain_try in H.
  rewrite Hp, bind_returned, Hf, bind_returned in H.
  destruct (is_nil symbols
            && negb (sp.is_Derivative expr || sp.is_Integral expr
                     || sp.is_Equality expr)).
  { crunch H. congruence. }
  destruct (sp.is_Derivative expr || Py.contains "diff(" problem).
  { crunch H. congruence. }
  destruct (sp.is_Integral expr || Py.contains "integrate(" problem).
  { crunch H. congruence. }
  destruct (sp.is_Equality expr).
  { crunch H; congruence. }
  crunch H; congruence.
Qed.

(** C3, amended: the explanation generator sorts inputs into the same
    five shapes, but it tests for a constant first (no free symbols and
    not a derivative, integral or equation node) and only then for
    derivative, integral and equation.  Whenever both functions return,
    the explanation's shape is [ConstantExpression] if that first test
    fires and the solver's shape otherwise; the two differ exactly when
    the first test fires on a text that contains ["diff("] or
    ["integrate("]. *)
Theorem explanation_shape_vs_solver_shape (problem : string) (expr : Expr)
    (symbols : list Expr) (s1 s2 : Shape) (answer : string * string)
    (markdown : string) :
  sp.sympify problem = inr expr ->
  sp.free_symbols expr = inr symbols ->
  solve_try problem = inr (s1, answer) ->
  explain_try problem = inr (s2, markdown) ->
  let constant_first :=
    is_nil symbols
    && negb (sp.is_Derivative expr || sp.is_Integral expr || sp.is_Equality expr) in
  s2 = (if constant_first then ConstantExpression else s1)
  /\ (Shape_eqb s1 s2
      = negb (constant_first
              && (Py.contains "diff(" problem || Py.contains "integrate(" problem))).
Proof.
  intros Hp Hf H1 H2 constant_first. subst constant_first.
  rewrite (solver_shape_order _ _ _ _ _ Hp Hf H1).
  rewrite (explanation_shape_order _ _ _ _ _ Hp Hf H2).
  destruct (is_nil symbols), (sp.is_Derivative expr), (sp.is_Integral expr),
    (sp.is_Equality expr), (Py.contains "diff(" problem),
    (Py.contains "integrate(" problem); split; reflexivity.
Qed.

End ShapeProperties.

Section ExplanationProperties.

Context {Expr : Type} {cas : sp.CAS Expr}.




End ExplanationProperties.

Section FrontendProperties.

Context {Expr : Type} {cas : sp.CAS Expr}.

Lemma _is_empty_blank : _is_empty (Some EmptyString) = true.
Proof. reflexivity. Qed.

Lemma existsb_eqb_In (s : string) (l : list string) :
  existsb (String.eqb s) l = true <-> In s l.
Proof.
  rewrite existsb_exists. split.
  - intros (t & Hin & Heq). apply String.eqb_eq in Heq. subst t. exact Hin.
  - intros Hin. exists s. split; [exact Hin | apply String.eqb_refl].
Qed.

(** What counts as empty-looking. *)
Lemma _is_empty_spec (s : option string) :
  _is_empty s = true
  <-> s = None
      \/ exists t, s = Some t
           /\ (Py.strip t = EmptyString
               \/ In (Py.strip t) ["[]"; "()"; "Tuple()"; "None"; "NoneType"]).
Proof.
  destruct s as [t |]; simpl.
  - destruct (String.eqb_spec (Py.strip t) EmptyString) as [Hb | Hb].
    + split; [| reflexivity].
      intros _. right. exists t. auto.
    + rewrite (existsb_eqb_In (Py.strip t) empties). split.
      * intros Hin. right. exists t. auto.
      * intros [Hn | (t' & Ht & [Hb' | Hin])]; [discriminate | |];
          injection Ht as <-; [contradiction | exact Hin].
  - split; auto.
Qed.

(** X1: [_is_empty] looks at the stripped text only: stripping the
    argument beforehand changes nothing. *)
Theorem _is_empty_ignores_padding (s : string) :
  _is_empty (Some (Py.strip s)) = _is_empty (Some s).
Proof.
  unfold _is_empty. rewrite strip_idempotent. reflexivity.
Qed.

(** A text that starts with a visible character other than the first
    characters of the five empty-looking words is not empty-looking. *)
Lemma _is_empty_visible_start (c : ascii) (s : string) :
  Py.starts_no_space c = true ->
  forallb (fun first => negb (Ascii.eqb c first))
    ["["; "("; "T"; "N"]%char = true ->
  _is_empty (Some (String c s)) = false.
Proof.
  intros Hc Hfirst. unfold _is_empty.
  destruct (strip_keeps_head c s Hc) as (r & ->).
  cbn in Hfirst |- *.
  repeat (apply andb_prop in Hfirst; destruct Hfirst as [?H Hfirst]).
  repeat match goal with
         | H : negb (Ascii.eqb c ?d) = true |- _ =>
             apply negb_true_iff in H; rewrite H
         end.
  reflexivity.
Qed.

Lemma error_answer_not_empty_looking (e : string) :
  _is_empty (Some (fst (error_answer e))) = false
  /\ _is_empty (Some (snd (error_answer e))) = false.
Proof.
  split; apply _is_empty_visible_start; reflexivity.
Qed.

Lemma second_pass_kept (display latex problem : string) (calls : nat) :
  _is_empty (Some display) = false ->
  _is_empty (Some latex) = false ->
  second_pass display latex calls problem
  = inr {| display_text := display; latex_text := latex;
           fallback_calls := calls |}.
Proof.
  intros Hd Hl. unfold second_pass. rewrite Hd, Hl. reflexivity.
Qed.

Lemma second_pass_calls (display latex problem : string) (calls : nat)
    (shown : shown_answer) :
  second_pass display latex calls problem = inr shown ->
  fallback_calls shown
  = if _is_empty (Some display) || _is_empty (Some latex)
    then S calls else calls.
Proof.
  unfold second_pass. intros H.
  destruct (_is_empty (Some display) || _is_empty (Some latex));
    crunch H; subst shown; reflexivity.
Qed.

(** A lone string leaves the LaTeX string empty, which alone sends the
    handler to the fallback. *)
Lemma single_string_calls (s problem : string) (shown : shown_answer) :
  normalise (inr (raw_str s)) problem = inr shown ->
  fallback_calls shown = 1.
Proof.
  unfold normalise. cbn [try_except first_pass].
  rewrite !bind_returned. intros H.
  apply second_pass_calls in H.
  rewrite _is_empty_blank, orb_true_r in H. exact H.
Qed.

Lemma blank_guard (problem : string) :
  negb (nonempty problem) || negb (nonempty (Py.strip problem))
  = negb (Py.has_visible problem).
Proof.
  unfold nonempty. rewrite !negb_involutive.
  destruct (Py.has_visible problem) eqn:Hv.
  - destruct (String.eqb_spec (Py.strip problem) EmptyString) as [Hs | _].
    + exfalso. exact (strip_nonempty _ Hv Hs).
    + destruct (String.eqb_spec problem EmptyString) as [-> | _];
        [discriminate | reflexivity].
  - apply strip_empty_iff in Hv. rewrite Hv. cbn. apply orb_true_r.
Qed.

(** X3: when the body of the solver's [try] raises on a problem with a
    visible character, the wrapper keeps the solver's error pair as it
    is and does not call its fallback. *)
Theorem solver_error_reaches_page_unchanged (problem e : string) :
  Py.has_visible problem = true ->
  solve_try problem = inl (Exception e) ->
  on_solve problem
  = inr (Some {| display_text := "Error: " ++ e;
                 latex_text := "\text{Error: " ++ Py.replace e "}" "\}" ++ "}";
                 fallback_calls := 0 |}).
Proof.
  intros Hv He. unfold on_solve. rewrite blank_guard, Hv. cbn [negb].
  unfold solver_outcome, solve_math_problem. rewrite He.
  destruct (error_answer_not_empty_looking e) as [Hd Hl].
  unfold normalise.
  cbn [bind Monad_exc Monad_either try_except ret first_pass fst snd].
  cbn [error_answer fst snd] in Hd, Hl.
  change (error_answer e)
    with ("Error: " ++ e, "\text{" ++ Py.replace ("Error: " ++ e) "}" "\}" ++ "}").
  cbn [fst snd]. rewrite (second_pass_kept _ _ _ _ Hd Hl). reflexivity.
Qed.

(** X4: whatever the solver returned or raised, the display string the
    wrapper settles on is empty-looking only if its own fallback gave
    nothing usable either. *)
Theorem shown_display_is_best_effort (outcome : exc raw_value)
    (problem : string) (shown : shown_answer) :
  normalise outcome problem = inr shown ->
  _is_empty (Some (display_text shown)) = true ->
  exists answer,
    _sympy_fallback problem = inr answer
    /\ nonempty (fst answer) && negb (_is_empty (Some (fst answer))) = false.
Proof.
  unfold normalise. intros H Hempty.
  apply bind_inr_inv in H. destruct H as (raw & _ & H).
  apply bind_inr_inv in H. destruct H as ([[display latex] calls] & _ & H).
  unfold second_pass in H.
  destruct (_is_empty (Some display)) eqn:Hd;
    [| destruct (_is_empty (Some latex)) eqn:Hl]; cbn [orb] in H.
  - apply bind_inr_inv in H. destruct H as ([fb_display fb_latex] & Hfb & H).
    exists (fb_display, fb_latex). split; [exact Hfb |]. cbn [fst].
    destruct (nonempty fb_display && negb (_is_empty (Some fb_display))) eqn:Hok;
      [| reflexivity].
    apply ret_inr_inv in H. subst shown. cbn [display_text] in Hempty.
    apply andb_prop in Hok. destruct Hok as [_ Hok].
    rewrite Hempty in Hok. discriminate Hok.
  - apply bind_inr_inv in H. destruct H as ([fb_display fb_latex] & Hfb & H).
    exists (fb_display, fb_latex). split; [exact Hfb |]. cbn [fst].
    destruct (nonempty fb_display && negb (_is_empty (Some fb_display))) eqn:Hok;
      [| reflexivity].
    apply ret_inr_inv in H. subst shown. cbn [display_text] in Hempty.
    apply andb_prop in Hok. destruct Hok as [_ Hok].
    rewrite Hempty in Hok. discriminate Hok.
  - apply ret_inr_inv in H. subst shown. cbn [display_text] in Hempty.
    congruence.
Qed.

End FrontendProperties.

Lemma startswith_split (s p : string) :
  Py.startswith s p = true -> exists rest, s = p ++ rest.
Proof.
  revert s. induction p as [| a p IH]; intros s H.
  - exists s. reflexivity.
  - destruct s as [| b s]; cbn [Py.startswith] in H; [discriminate |].
    apply andb_prop in H. destruct H as [Hab H].
    apply Ascii.eqb_eq in Hab. subst b.
    destruct (IH s H) as (rest & ->). exists rest. reflexivity.
Qed.

Section WalkthroughProperties.

Context {Expr : Type} {cas : sp.CAS Expr}.

(** Every [return] of the [try] joins a list that begins with the
    friendly line and a short answer. *)
Lemma explanation_opening (problem : string) (shape : Shape) (markdown : string) :
  explain_try problem = inr (shape, markdown) ->
  Py.startswith markdown
    (friendly_line ++ nl ++ nl ++ "**Short answer:** ") = true.
Proof.
  intros H. unfold explain_try in H.
  crunch H; injection H as _ <-; reflexivity.
Qed.

Lemma explanation_starts_with_star (problem markdown : string) :
  generate_explanation problem = inr markdown ->
  exists rest, markdown = String "*" rest.
Proof.
  unfold generate_explanation.
  destruct (explain_try problem) as [[e | b] | [shape text]] eqn:H;
    cbn; intros Hm; try discriminate Hm; injection Hm as <-.
  - eexists. reflexivity.
  - apply explanation_opening in H. apply startswith_split in H.
    destruct H as (rest & ->). eexists. reflexivity.
Qed.

Lemma explanation_not_empty_looking (problem markdown : string) :
  generate_explanation problem = inr markdown ->
  nonempty markdown && negb (_is_empty (Some markdown)) = true.
Proof.
  intros H. destruct (explanation_starts_with_star _ _ H) as (rest & ->).
  rewrite _is_empty_visible_start; reflexivity.
Qed.

Lemma explanation_raises_no_Exception (problem e : string) :
  generate_explanation problem <> inl (Exception e).
Proof.
  unfold generate_explanation.
  destruct (explain_try problem) as [[e' | b] | [shape text]]; discriminate.
Qed.

(** X6: the explanation, when one is returned, opens in one of two ways:
    with the friendly line, a blank line and ["**Short answer:** "] when
    the body of the [try] returned, whatever the shape, and with the
    apology, a blank line and ["Error: "] when it raised an [Exception].
    Anything else that is raised goes on to the caller. *)
Theorem explanation_opens_in_two_ways (problem : string) :
  match explain_try problem with
  | inr _ =>
      exists markdown,
        generate_explanation problem = inr markdown
        /\ Py.startswith markdown
             ("**Here's what I found — short answer first, then a quick walkthrough:**"
                ++ nl ++ nl ++ "**Short answer:** ") = true
  | inl (Exception _) =>
      exists markdown,
        generate_explanation problem = inr markdown
        /\ Py.startswith markdown
             ("**Sorry — I couldn't generate a walkthrough.**"
                ++ nl ++ nl ++ "Error: ") = true
  | inl (BaseException b) =>
      generate_explanation problem = inl (BaseException b)
  end.
Proof.
  unfold generate_explanation.
  destruct (explain_try problem) as [[e | b] | [shape markdown]] eqn:H; cbn.
  - eexists. split; reflexivity.
  - reflexivity.
  - exists markdown. split; [reflexivity |].
    exact (explanation_opening _ _ _ H).
Qed.

End WalkthroughProperties.

(** ** What a click draws *)

Lemma in_page_bind {A B} (c : page A) (k : A -> page B) (x : st_call) :
  In x (fst (bind c k)) ->
  In x (fst c) \/ exists a, snd c = inr a /\ In x (fst (k a)).
Proof.
  destruct c as [calls [e | a]]; cbn; intros H; [left; exact H |].
  apply in_app_or in H. destruct H as [H | H]; [left; exact H |].
  right. exists a. split; [reflexivity | exact H].
Qed.

Lemma in_page_try {A} (c h : page A) (x : st_call) :
  In x (fst (page_try c h)) -> In x (fst c) \/ In x (fst h).
Proof.
  destruct c as [calls [[e | b] | a]]; cbn; intros H; try (left; exact H).
  apply in_app_or in H. exact H.
Qed.

Section PageProperties.

Context {Expr : Type} {cas : sp.CAS Expr} {streamlit : Streamlit}.

Lemma in_call (c x : st_call) : In x (fst (call c)) -> x = c.
Proof.
  unfold call. destruct (st_raises c); cbn; intros H; [contradiction |].
  destruct H as [H | H]; [symmetry; exact H | contradiction].
Qed.

Lemma call_returns (c : st_call) :
  st_raises c = None -> call c = ([c], inr tt).
Proof. intros H. unfold call. rewrite H. reflexivity. Qed.

(** Taking a page apart into its calls. *)
Ltac calls_of H :=
  repeat match type of H with
         | In _ (fst (bind _ _)) =>
             apply in_page_bind in H; destruct H as [H | (? & ? & H)]
         | In _ (fst (page_try _ _)) =>
             apply in_page_try in H; destruct H as [H | H]
         | In _ (fst (call _)) => apply in_call in H
         | In _ (fst (lift _)) => destruct H
         | In _ (fst (ret _)) => destruct H
         end.

(** [render] makes no call of [st.warning] and none of [st.write] with
    the message for a missing walkthrough. *)
Lemma render_calls (problem raw_repr display latex : string) (x : st_call) :
  In x (fst (render problem raw_repr display latex)) ->
  x <> st_write "No walkthrough available for this input."
  /\ forall body, x <> st_warning body.
Proof.
  unfold render. intros H.
  calls_of H;
    repeat match type of H with
           | In _ (fst (if ?c then _ else _)) => destruct c eqn:?; calls_of H
           end;
    try (subst x; split; [discriminate | intros body; discriminate]).
  match goal with
  | Hg : snd (lift (generate_explanation problem)) = inr _ |- _ =>
      cbn [lift snd] in Hg; apply explanation_not_empty_looking in Hg;
      congruence
  end.
Qed.


(** X7: the message for a missing walkthrough can never appear on the
    page, whatever Streamlit does, because the explanation is never
    empty-looking.  With a Streamlit whose calls do not raise, a returned
    explanation is always shown under "Walkthrough", without the message
    for a failed walkthrough, and the handler runs to its end; the
    explanation is not shown exactly when [generate_explanation] lets
    through something that is not an [Exception], which ends the handler
    before the debug expander. *)
Theorem walkthrough_is_always_shown (problem raw_repr display latex : string) :
  ~ In (st_write "No walkthrough available for this input.")
       (fst (render problem raw_repr display latex))
  /\ ((forall c, st_raises c = None) ->
      match generate_explanation problem with
      | inr markdown =>
          In (st_markdown_html markdown)
             (fst (render problem raw_repr display latex))
          /\ ~ In (st_write "Couldn't produce a walkthrough for this input.")
                  (fst (render problem raw_repr display latex))
          /\ snd (render problem raw_repr display latex) = inr tt
      | inl e =>
          snd (render problem raw_repr display latex) = inl e
          /\ (exists b, e = BaseException b)
          /\ (forall markdown,
                ~ In (st_markdown_html markdown)
                     (fst (render problem raw_repr display latex)))
          /\ ~ In (st_expander "Show debug info")
                  (fst (render problem raw_repr display latex))
      end).
Proof.
  split.
  - intros H. apply render_calls in H. destruct H as [H _]. exact (H eq_refl).
  - intros Hquiet. unfold render. rewrite !(call_returns _ (Hquiet _)).
    destruct (generate_explanation problem) as [[e | b] | markdown] eqn:Hg.
    + exfalso. exact (explanation_raises_no_Exception _ _ Hg).
    + destruct (nonempty latex && negb (_is_empty (Some latex))
                && negb (looks_like_error display));
        destruct (nonempty display && negb (looks_like_error display));
        destruct (looks_like_error display);
        cbn; (split; [reflexivity |]); (split; [eauto |]);
        (split; [intros markdown H | intros H]);
        repeat (destruct H as [H | H]; try discriminate H);
        contradiction.
    + unfold lift. cbn [bind Monad_page page_bind fst snd].
      rewrite (explanation_not_empty_looking _ _ Hg).
      rewrite !(call_returns _ (Hquiet _)).
      destruct (nonempty latex && negb (_is_empty (Some latex))
                && negb (looks_like_error display));
        destruct (nonempty display && negb (looks_like_error display));
        destruct (looks_like_error display);
        cbn; (split; [tauto |]); (split; [| reflexivity]);
        intros H; repeat (destruct H as [H | H]; try discriminate H);
        contradiction.
Qed.

End PageProperties.

Section FallbackProperties.

Context {Expr : Type} {cas : sp.CAS Expr}.

Lemma first_item_inv {A} (l : list A) (a : A) :
  first_item l = inr a -> exists rest, l = a :: rest.
Proof.
  destruct l as [| b rest]; cbn; [discriminate |].
  intros H. injection H as ->. eauto.
Qed.

(** X10: the front end's fallback repeats the solver's work shape by
    shape, except for equations, which it does not single out.  Whenever
    the solver returns from a block other than the equation block and
    the fallback returns too, the two LaTeX strings are the same. *)
Theorem fallback_latex_matches_solver (problem : string) (shape : Shape)
    (display latex fb_display fb_latex : string) :
  solve_try problem = inr (shape, (display, latex)) ->
  shape <> Equality ->
  fallback_try problem = inr (fb_display, fb_latex) ->
  fb_latex = latex.
Proof.
  intros H1 Hne H2. unfold solve_try in H1. unfold fallback_try in H2.
  apply bind_inr_inv in H1. destruct H1 as (expr & Hp & H1).
  rewrite Hp, bind_returned in H2.
  destruct (sp.is_Derivative expr || Py.contains "diff(" problem).
  { crunch H1. crunch H2. congruence. }
  destruct (sp.is_Integral expr || Py.contains "integrate(" problem).
  { crunch H1. crunch H2. congruence. }
  destruct (sp.is_Equality expr).
  { crunch H1; congruence. }
  apply bind_inr_inv in H1. destruct H1 as (symbols & Hf & H1).
  rewrite Hf, bind_returned in H2.
  destruct (is_nil symbols).
  { crunch H1. crunch H2. congruence. }
  rewrite Hf, bind_returned in H1. rewrite ?bind_returned in H2.
  apply bind_inr_inv in H1. destruct H1 as (primary_var & Hfirst & H1).
  apply first_item_inv in Hfirst. destruct Hfirst as (rest & ->).
  apply bind_inr_inv in H1. destruct H1 as (eq0 & Heq & H1).
  rewrite Heq, bind_returned in H2.
  apply bind_inr_inv in H1. destruct H1 as (sol_values & Hsol & H1).
  rewrite Hsol, bind_returned in H2.
  apply bind_inr_inv in H1. destruct H1 as (found & Hfound & H1).
  rewrite Hfound, bind_returned in H2.
  destruct found; [destruct sol_values as [values | value] |];
    crunch H1; crunch H2; congruence.
Qed.

End FallbackProperties.

Lemma append_assoc (a b c : string) : (a ++ b) ++ c = a ++ b ++ c.
Proof. induction a as [| x a IH]; simpl; [reflexivity | rewrite IH; reflexivity]. Qed.

(** ** Nothing found is left out of the answer *)

Lemma startswith_app_r (s p b : string) :
  Py.startswith s p = true -> Py.startswith (s ++ b) p = true.
Proof.
  intros H. apply startswith_split in H. destruct H as (rest & ->).
  rewrite append_assoc. apply startswith_app.
Qed.

Lemma startswith_refl (s : string) : Py.startswith s s = true.
Proof.
  induction s as [| c s IH]; cbn [Py.startswith]; [reflexivity |].
  rewrite Ascii.eqb_refl. exact IH.
Qed.

Lemma contains_self (s : string) : Py.contains s s = true.
Proof.
  destruct s; cbn [Py.contains]; rewrite startswith_refl; reflexivity.
Qed.

Lemma contains_app_l (sub a s : string) :
  Py.contains sub s = true -> Py.contains sub (a ++ s) = true.
Proof.
  intros H. induction a as [| c a IH]; [exact H |].
  cbn [append Py.contains]. rewrite IH. apply orb_true_r.
Qed.

Lemma contains_app_r (sub s b : string) :
  Py.contains sub s = true -> Py.contains sub (s ++ b) = true.
Proof.
  induction s as [| c s IH]; intros H.
  - cbn [Py.contains] in H. rewrite orb_false_r in H.
    destruct sub; [| discriminate H].
    destruct b; reflexivity.
  - cbn [Py.contains] in H. apply orb_prop in H.
    cbn [append Py.contains]. destruct H as [H | H].
    + change (String c (s ++ b)) with (String c s ++ b).
      rewrite (startswith_app_r _ _ b H). reflexivity.
    + rewrite (IH H). apply orb_true_r.
Qed.

Lemma join_contains (sep p : string) (parts : list string) :
  In p parts -> Py.contains p (Py.join sep parts) = true.
Proof.
  induction parts as [| q qs IH]; intros H; [contradiction |].
  destruct qs as [| r qs].
  - destruct H as [-> | []]. apply contains_self.
  - change (Py.join sep (q :: r :: qs))
      with (q ++ sep ++ Py.join sep (r :: qs)).
    destruct H as [-> | H].
    + apply contains_app_r, contains_self.
    + apply contains_app_l, contains_app_l, IH, H.
Qed.

Lemma mapM_In {A B} (f : A -> exc B) (l : list A) (r : list B) (a : A) :
  mapM f l = inr r -> In a l -> exists b, f a = inr b /\ In b r.
Proof.
  revert r. induction l as [| x l IH]; intros r H Hin; [contradiction |].
  cbn [mapM] in H.
  apply bind_inr_inv in H. destruct H as (b & Hb & H).
  apply bind_inr_inv in H. destruct H as (bs & Hbs & H).
  apply ret_inr_inv in H. subst r.
  destruct Hin as [-> | Hin].
  - exists b. split; [exact Hb | left; reflexivity].
  - destruct (IH bs Hbs Hin) as (b' & Hb' & Hin').
    exists b'. split; [exact Hb' | right; exact Hin'].
Qed.

Section RootsProperties.

Context {Expr : Type} {cas : sp.CAS Expr}.

(** X11: when the solver treats an expression as [expression = 0] and
    [solve] gives a list of roots for the first free symbol, every root
    is in the answer: the display string contains [symbol = root] with
    the root in display form, and the LaTeX string contains the LaTeX of
    the equation [Eq(symbol, root)]. *)
Theorem every_root_is_shown (problem : string) (expr primary_var eq0 : Expr)
    (others values : list Expr) (display latex : string) :
  sp.sympify problem = inr expr ->
  sp.free_symbols expr = inr (primary_var :: others) ->
  sp.Eq expr (sp.Integer 0) = inr eq0 ->
  sp.solve eq0 primary_var = inr (sp.a_list values) ->
  solve_try problem = inr (ExpressionWithSymbols, (display, latex)) ->
  forall root, In root values ->
    exists name shown eq tex,
      sp.str primary_var = inr name
      /\ _sympy_to_display root = inr shown
      /\ Py.contains (name ++ " = " ++ shown) display = true
      /\ sp.Eq primary_var root = inr eq
      /\ sp.latex eq = inr tex
      /\ Py.contains tex latex = true.
Proof.
  intros Hp Hf Heq Hsol H root Hin. unfold solve_try in H.
  rewrite Hp, bind_returned in H.
  destruct (sp.is_Derivative expr || Py.contains "diff(" problem).
  { crunch H. }
  destruct (sp.is_Integral expr || Py.contains "integrate(" problem).
  { crunch H. }
  destruct (sp.is_Equality expr).
  { crunch H. }
  rewrite Hf, !bind_returned in H. cbn [is_nil] in H.
  change (first_item (primary_var :: others)) with (inr primary_var : exc Expr) in H.
  rewrite bind_returned, Heq, bind_returned, Hsol, bind_returned in H.
  destruct values as [| v values]; [contradiction |].
  change (truthy (sp.a_list (v :: values))) with (inr true : exc bool) in H.
  rewrite bind_returned in H.
  apply bind_inr_inv in H. destruct H as (display_parts & Hd & H).
  apply bind_inr_inv in H. destruct H as (latex_parts & Hl & H).
  apply ret_inr_inv in H. injection H as <- <-.
  destruct (mapM_In _ _ _ root Hd Hin) as (part & Hpart & Hpin).
  destruct (mapM_In _ _ _ root Hl Hin) as (tex & Htex & Htin).
  apply bind_inr_inv in Hpart. destruct Hpart as (name & Hname & Hpart).
  apply bind_inr_inv in Hpart. destruct Hpart as (shown & Hshown & Hpart).
  apply ret_inr_inv in Hpart. subst part.
  apply bind_inr_inv in Htex. destruct Htex as (eq & Heq' & Htex).
  exists name, shown, eq, tex.
  repeat split; auto using join_contains.
Qed.

End RootsProperties.

Lemma endswith_app_l (a s suf : string) :
  Py.endswith s suf = true -> Py.endswith (a ++ s) suf = true.
Proof.
  intros H. induction a as [| c a IH]; [exact H |].
  cbn [append Py.endswith]. rewrite IH. apply orb_true_r.
Qed.

Lemma join_endswith (sep last : string) (parts : list string) :
  Py.endswith (Py.join sep (parts ++ [last])%list) last = true.
Proof.
  induction parts as [| p ps IH]; [apply endswith_refl |].
  cbn [app]. destruct (ps ++ [last])%list as [| q qs] eqn:Hq.
  - destruct ps; discriminate Hq.
  - change (Py.join sep (p :: q :: qs))
      with (p ++ sep ++ Py.join sep (q :: qs)).
    apply endswith_app_l, endswith_app_l, IH.
Qed.

Section EquationProperties.

Context {Expr : Type} {cas : sp.CAS Expr}.

(** X12: when the solver handles an input as an equation and [solve]
    returns solution dictionaries, every entry of every dictionary is in
    the answer: the display string contains [variable = value] with the
    value in display form, and the LaTeX string contains the LaTeX of
    [Eq(variable, value)]. *)
Theorem every_solution_entry_is_shown (problem : string) (expr : Expr)
    (sol : list (list (Expr * Expr))) (display latex : string) :
  sp.sympify problem = inr expr ->
  sp.solve_dict expr = inr sol ->
  solve_try problem = inr (Equality, (display, latex)) ->
  forall dict var val, In dict sol -> In (var, val) dict ->
    exists name shown eq tex,
      sp.str var = inr name
      /\ _sympy_to_display val = inr shown
      /\ Py.contains (name ++ " = " ++ shown) display = true
      /\ sp.Eq var val = inr eq
      /\ sp.latex eq = inr tex
      /\ Py.contains tex latex = true.
Proof.
  intros Hp Hs H dict var val Hdict Hentry. unfold solve_try in H.
  rewrite Hp, bind_returned in H.
  destruct (sp.is_Derivative expr || Py.contains "diff(" problem).
  { crunch H. }
  destruct (sp.is_Integral expr || Py.contains "integrate(" problem).
  { crunch H. }
  destruct (sp.is_Equality expr); [| crunch H].
  rewrite Hs, bind_returned in H.
  destruct sol as [| d sol]; [contradiction |]. cbn [is_nil] in H.
  apply bind_inr_inv in H. destruct H as (parts & Hm & H).
  apply ret_inr_inv in H. injection H as <- <-.
  assert (In (var, val) (concat (d :: sol))) as Hin.
  { apply in_concat. exists dict. split; assumption. }
  destruct (mapM_In _ _ _ _ Hm Hin) as ([shown_part tex] & Hpart & Hpin).
  apply bind_inr_inv in Hpart. destruct Hpart as (name & Hname & Hpart).
  apply bind_inr_inv in Hpart. destruct Hpart as (shown & Hshown & Hpart).
  apply bind_inr_inv in Hpart. destruct Hpart as (eq & Heq & Hpart).
  apply bind_inr_inv in Hpart. destruct Hpart as (tex' & Htex & Hpart).
  apply ret_inr_inv in Hpart. injection Hpart as <- <-.
  exists name, shown, eq, tex'.
  repeat split; auto.
  - apply join_contains.
    exact (in_map fst _ _ Hpin).
  - apply join_contains.
    exact (in_map snd _ _ Hpin).
Qed.

(** X13: for an input that both the solver and the explanation handle
    as an equation and for which [solve] finds nothing, the solver
    answers ["No solution"] and the walkthrough ends with the sentence
    that no solution was found. *)
Theorem unsolvable_equation_is_reported_twice (problem : string) (expr : Expr)
    (display latex markdown : string) :
  sp.sympify problem = inr expr ->
  sp.solve_dict expr = inr [] ->
  solve_try problem = inr (Equality, (display, latex)) ->
  explain_try problem = inr (Equality, markdown) ->
  display = "No solution"
  /\ Py.endswith markdown "- I couldn't find a solution." = true.
Proof.
  intros Hp Hs H1 H2. split.
  - unfold solve_try in H1. rewrite Hp, bind_returned in H1.
    destruct (sp.is_Derivative expr || Py.contains "diff(" problem).
    { crunch H1. }
    destruct (sp.is_Integral expr || Py.contains "integrate(" problem).
    { crunch H1. }
    destruct (sp.is_Equality expr); [| crunch H1].
    rewrite Hs, bind_returned in H1. cbn [is_nil] in H1.
    apply ret_inr_inv in H1. congruence.
  - unfold explain_try in H2. rewrite Hp, bind_returned in H2.
    apply bind_inr_inv in H2. destruct H2 as (symbols & Hf & H2).
    destruct (is_nil symbols
              && negb (sp.is_Derivative expr || sp.is_Integral expr
                       || sp.is_Equality expr)).
    { crunch H2. }
    destruct (sp.is_Derivative expr || Py.contains "diff(" problem).
    { crunch H2. }
    destruct (sp.is_Integral expr || Py.contains "integrate(" problem).
    { crunch H2. }
    destruct (sp.is_Equality expr); [| crunch H2].
    rewrite Hs in H2.
    crunch H2. apply (f_equal snd) in H2. cbn [snd] in H2. subst markdown.
    apply join_endswith.
Qed.

(** X14: the front end's fallback appends the constant of integration
    as the solver does: for an input that passes the integral test and
    not the derivative test, both strings of the fallback end with
    [" + C"] whenever its [try] returns. *)
Theorem fallback_integral_ends_with_C (problem : string) (expr : Expr)
    (display latex : string) :
  sp.sympify problem = inr expr ->
  sp.is_Derivative expr || Py.contains "diff(" problem = false ->
  sp.is_Integral expr || Py.contains "integrate(" problem = true ->
  fallback_try problem = inr (display, latex) ->
  _sympy_fallback problem = inr (display, latex)
  /\ Py.endswith display " + C" = true
  /\ Py.endswith latex " + C" = true.
Proof.
  intros Hp Hd Hi H. split.
  - unfold _sympy_fallback. rewrite H. reflexivity.
  - unfold fallback_try in H. rewrite Hp, bind_returned, Hd, Hi in H.
    crunch H. injection H as <- <-. split; apply endswith_app.
Qed.

End EquationProperties.

Section PrimaryVariableProperties.

Context {Expr : Type} {cas : sp.CAS Expr}.

(** X15: when the explanation treats the input as [expression = 0], the
    variable it announces as chosen is the first free symbol of the
    parsed expression, the one the solver solves for. *)
Theorem explanation_names_first_symbol (problem : string)
    (expr primary_var : Expr) (others : list Expr) (name markdown : string) :
  sp.sympify problem = inr expr ->
  sp.free_symbols expr = inr (primary_var :: others) ->
  sp.str primary_var = inr name ->
  explain_try problem = inr (ExpressionWithSymbols, markdown) ->
  Py.contains ("- Primary variable chosen: `" ++ name ++ "`") markdown = true.
Proof.
  intros Hp Hf Hn H. unfold explain_try in H.
  rewrite Hp, bind_returned, Hf, bind_returned in H.
  destruct (is_nil (primary_var :: others)
            && negb (sp.is_Derivative expr || sp.is_Integral expr
                     || sp.is_Equality expr)).
  { crunch H. }
  destruct (sp.is_Derivative expr || Py.contains "diff(" problem).
  { crunch H. }
  destruct (sp.is_Integral expr || Py.contains "integrate(" problem).
  { crunch H. }
  destruct (sp.is_Equality expr).
  { crunch H. }
  rewrite bind_returned in H.
  change (first_item (primary_var :: others)) with (inr primary_var : exc Expr) in H.
  rewrite bind_returned, Hn, bind_returned in H.
  crunch H; apply (f_equal snd) in H; cbn [snd] in H; subst markdown;
    apply join_contains;
    repeat (apply in_or_app; left); cbn [In]; tauto.
Qed.

End PrimaryVariableProperties.

(** * Concrete runs on the stand-in for SymPy *)

Section Runs.

Import SymPyFragment.


(** C2: the text below is not empty and parses (to a symbol whose name
    is the empty string), and both returned strings are empty. *)
Theorem unnamed_symbol_gives_empty_answer :
  "diff(Symbol('')*x, x)" <> EmptyString
  /\ sp.sympify "diff(Symbol('')*x, x)" = inr (symbol EmptyString)
  /\ solve_math_problem "diff(Symbol('')*x, x)"
     = inr (EmptyString, EmptyString).
Proof. split; [discriminate |]. split; reflexivity. Qed.

(** C3, as stated, fails: [diff(x, x)] parses to the constant 1; the
    solver handles it as a derivative and the explanation as a constant. *)
Lemma constant_derivative_is_explained_as_constant :
  sp.sympify "diff(x, x)" = inr (integer 1)
  /\ solve_try "diff(x, x)" = inr (Derivative, ("1.00000000000000", "1"))
  /\ exists markdown,
       explain_try "diff(x, x)" = inr (ConstantExpression, markdown).
Proof. split; [reflexivity |]. split; [reflexivity |]. eexists. reflexivity. Qed.

(** C5, as stated, fails: the text below parses to an equation for which
    [solve] finds nothing, yet it mentions ["diff("] and so gets the
    derivative block's answer. *)
Lemma unsolvable_equation_with_diff_text :
  sp.sympify "Eq(sqrt(x), -diff(x, x))" = inr (equation (sqrt x) (integer (-1)))
  /\ sp.is_Equality (equation (sqrt x) (integer (-1))) = true
  /\ sp.solve_dict (equation (sqrt x) (integer (-1))) = inr []
  /\ solve_math_problem "Eq(sqrt(x), -diff(x, x))"
     = inr ("√x = -1", "\sqrt{x} = -1")
  /\ solve_math_problem "Eq(sqrt(x), -diff(x, x))"
     <> inr ("No solution", "\text{No solution}").
Proof. repeat (split; [reflexivity |]). discriminate. Qed.

(** C7, as stated, fails: [sp.N] makes the integer 4 a float, which is
    shown with 15 digits and typeset as 4.0. *)
Lemma two_plus_two_is_shown_as_float :
  solve_try "2+2" = inr (ConstantExpression, ("4.00000000000000", "4.0"))
  /\ solve_math_problem "2+2" <> inr ("4", "4").
Proof. split; [reflexivity | discriminate]. Qed.


(** C9: what the command-line program prints for [2+2].  After
    ["Solution: "] comes the whole (display, latex) pair the way Python
    prints a tuple, not the display string; the explanation follows
    ["Explanation: "] as it is. *)
Theorem command_line_prints_the_pair :
  solve_math_problem "2+2" = inr ("4.00000000000000", "4.0")
  /\ exists markdown printed,
       generate_explanation "2+2" = inr markdown
       /\ main "2+2" = inr printed
       /\ printed
          = nl ++ "Solution: ('4.00000000000000', '4.0')" ++ nl
            ++ nl ++ "Explanation: " ++ markdown ++ nl
       /\ Py.startswith printed (nl ++ "Solution: " ++ "4.00000000000000")
          = false.
Proof.
  split; [reflexivity |]. eexists. eexists.
  split; [reflexivity |]. split; [reflexivity |]. split; reflexivity.
Qed.


(** *** The theorems above at concrete inputs *)



Lemma integral_answer_ends_with_C_run :
  Py.contains "diff(" "integrate(1, x)" = false
  /\ Py.contains "integrate(" "integrate(1, x)" = true
  /\ Integral = Integral
  /\ solve_math_problem "integrate(1, x)" = inr ("x + C", "x + C")
  /\ Py.endswith "x + C" " + C" = true
  /\ Py.endswith "x + C" " + C" = true.
Proof.
  split; [reflexivity |]. split; [reflexivity |].
  exact (integral_answer_ends_with_C "integrate(1, x)" x Integral
           "x + C" "x + C" eq_refl eq_refl eq_refl eq_refl).
Defined.


Lemma unsolvable_equation_answer_run :
  Py.contains "diff(" "Eq(sqrt(x), -1)" = false
  /\ Py.contains "integrate(" "Eq(sqrt(x), -1)" = false
  /\ solve_try "Eq(sqrt(x), -1)"
     = inr (Equality, ("No solution", "\text{No solution}"))
  /\ solve_math_problem "Eq(sqrt(x), -1)"
     = inr ("No solution", "\text{No solution}").
Proof.
  split; [reflexivity |]. split; [reflexivity |].
  apply (unsolvable_equation_answer "Eq(sqrt(x), -1)"
           (equation (sqrt x) (integer (-1)))); reflexivity.
Defined.

Lemma two_plus_two_is_evaluated_run :
  solve_try "2+2" = inr (ConstantExpression, ("4.00000000000000", "4.0"))
  /\ solve_math_problem "2+2" = inr ("4.00000000000000", "4.0").
Proof.
  apply (two_plus_two_is_evaluated (integer 4) (integer 4) (float 4) (float 4));
    reflexivity.
Defined.

Lemma explanation_shape_vs_solver_shape_run :
  ConstantExpression = ConstantExpression
  /\ Shape_eqb Derivative ConstantExpression = false.
Proof.
  exact (explanation_shape_vs_solver_shape "diff(x, x)" (integer 1) []
           Derivative ConstantExpression _ _
           eq_refl eq_refl eq_refl eq_refl).
Defined.

End Runs.

(** ** The further properties at concrete inputs *)

Section FurtherRuns.

Import SymPyFragment.

Lemma solver_error_reaches_page_unchanged_run :
  Py.has_visible "}" = true
  /\ exists shown, on_solve "}" = inr (Some shown) /\ fallback_calls shown = 0.
Proof.
  split; [reflexivity |]. eexists. split.
  - exact (solver_error_reaches_page_unchanged "}" _ eq_refl eq_refl).
  - reflexivity.
Defined.

Lemma shown_display_is_best_effort_run :
  exists answer,
    _sympy_fallback "diff(Symbol('')*x, x)" = inr answer
    /\ nonempty (fst answer) && negb (_is_empty (Some (fst answer))) = false.
Proof.
  exact (shown_display_is_best_effort
           (inr (raw_sequence EmptyString EmptyString))
           "diff(Symbol('')*x, x)"
           {| display_text := EmptyString; latex_text := EmptyString;
              fallback_calls := 1 |}
           eq_refl eq_refl).
Defined.

Lemma fallback_latex_matches_solver_run :
  solve_try "diff(x, x)" = inr (Derivative, ("1.00000000000000", "1"))
  /\ fallback_try "diff(x, x)" = inr ("1", "1")
  /\ "1" = "1".
Proof.
  split; [reflexivity |]. split; [reflexivity |].
  apply (fallback_latex_matches_solver "diff(x, x)" Derivative
           "1.00000000000000" "1" "1" "1");
    [reflexivity | discriminate | reflexivity].
Defined.

Lemma every_root_is_shown_run :
  solve_try "x" = inr (ExpressionWithSymbols, ("x = 0", "x = 0"))
  /\ exists name shown eq tex,
       sp.str x = inr name
       /\ _sympy_to_display (integer 0) = inr shown
       /\ Py.contains (name ++ " = " ++ shown) "x = 0" = true
       /\ sp.Eq x (integer 0) = inr eq
       /\ sp.latex eq = inr tex
       /\ Py.contains tex "x = 0" = true.
Proof.
  split; [reflexivity |].
  exact (every_root_is_shown "x" x x (equation x (integer 0)) []
           [integer 0] "x = 0" "x = 0"
           eq_refl eq_refl eq_refl eq_refl eq_refl
           (integer 0) (or_introl eq_refl)).
Defined.

Lemma every_solution_entry_is_shown_run :
  solve_try "Eq(x, 2)" = inr (Equality, ("x = 2.00000000000000", "x = 2"))
  /\ exists name shown eq tex,
       sp.str x = inr name
       /\ _sympy_to_display (integer 2) = inr shown
       /\ Py.contains (name ++ " = " ++ shown) "x = 2.00000000000000" = true
       /\ sp.Eq x (integer 2) = inr eq
       /\ sp.latex eq = inr tex
       /\ Py.contains tex "x = 2" = true.
Proof.
  split; [reflexivity |].
  exact (every_solution_entry_is_shown "Eq(x, 2)" (equation x (integer 2))
           [[(x, integer 2)]] "x = 2.00000000000000" "x = 2"
           eq_refl eq_refl eq_refl
           [(x, integer 2)] x (integer 2)
           (or_introl eq_refl) (or_introl eq_refl)).
Defined.

Lemma unsolvable_equation_is_reported_twice_run :
  "No solution" = "No solution"
  /\ exists markdown,
       explain_try "Eq(sqrt(x), -1)" = inr (Equality, markdown)
       /\ Py.endswith markdown "- I couldn't find a solution." = true.
Proof.
  split; [reflexivity |]. eexists. split; [reflexivity |].
  exact (proj2 (unsolvable_equation_is_reported_twice "Eq(sqrt(x), -1)"
                  (equation (sqrt x) (integer (-1)))
                  "No solution" "\text{No solution}" _
                  eq_refl eq_refl eq_refl eq_refl)).
Defined.

Lemma fallback_integral_ends_with_C_run :
  _sympy_fallback "integrate(1, x)" = inr ("x + C", "x + C")
  /\ Py.endswith "x + C" " + C" = true
  /\ Py.endswith "x + C" " + C" = true.
Proof.
  exact (fallback_integral_ends_with_C "integrate(1, x)" x "x + C" "x + C"
           eq_refl eq_refl eq_refl eq_refl).
Defined.

Lemma explanation_names_first_symbol_run :
  exists markdown,
    explain_try "x" = inr (ExpressionWithSymbols, markdown)
    /\ Py.contains "- Primary variable chosen: `x`" markdown = true.
Proof.
  eexists. split; [reflexivity |].
  exact (explanation_names_first_symbol "x" x x [] "x" _
           eq_refl eq_refl eq_refl eq_refl).
Defined.

End FurtherRuns.

(** ** The compact display form *)

Lemma has_break_cons (b : ascii) (s : string) :
  Py.has_break (String b s) = Py.starts_break (String b s) || Py.has_break s.
Proof. reflexivity. Qed.

Lemma starts_break_app (u w : string) :
  Py.starts_break u = true -> Py.starts_break (u ++ w) = true.
Proof.
  destruct u as [| b1 [| b2 [| b3 u3]]]; cbn [Py.starts_break append];
    try discriminate;
    destruct (Py.is_cr b1), (Py.break1 b1); cbn [orb];
    try reflexivity; try discriminate.
  - destruct (Py.break2 b1 b2); cbn [orb]; [reflexivity | discriminate].
  - destruct (Py.break2 b1 b2); cbn [orb]; [reflexivity |].
    intros H; exact H.
Qed.

Lemma has_break_prefix (u w : string) :
  Py.has_break (u ++ w) = false -> Py.has_break u = false.
Proof.
  induction u as [| b u IH]; [reflexivity |].
  cbn [append]. rewrite !has_break_cons. intros H.
  apply orb_false_elim in H. destruct H as [Hs Hr].
  rewrite (IH Hr), orb_false_r.
  destruct (Py.starts_break (String b u)) eqn:Hb; [| reflexivity].
  apply (starts_break_app _ w) in Hb. cbn [append] in Hb. congruence.
Qed.

Lemma breaks_within_prefix (u w : string) :
  Py.breaks_within (String.length u) (u ++ w) = false ->
  Py.has_break u = false.
Proof.
  induction u as [| b u IH]; [reflexivity |].
  cbn [append String.length Py.breaks_within]. rewrite has_break_cons.
  intros H. apply orb_false_elim in H. destruct H as [Hs Hr].
  rewrite (IH Hr), orb_false_r.
  destruct (Py.starts_break (String b u)) eqn:Hb; [| reflexivity].
  apply (starts_break_app _ w) in Hb. cbn [append] in Hb. congruence.
Qed.

Lemma breaks_within_next (cur : string) (b : ascii) (s : string) :
  Py.breaks_within (String.length (cur ++ String b EmptyString))
    ((cur ++ String b EmptyString) ++ s)
  = Py.breaks_within (String.length cur) (cur ++ String b s)
    || Py.starts_break (String b s).
Proof.
  induction cur as [| c cur IH].
  - cbn [append String.length Py.breaks_within].
    destruct s; rewrite orb_false_r; reflexivity.
  - cbn [append String.length]. cbn [append String.length] in IH.
    change (Py.breaks_within (S (String.length (cur ++ String b EmptyString)))
              (String c ((cur ++ String b EmptyString) ++ s)))
      with (Py.starts_break (String c ((cur ++ String b EmptyString) ++ s))
            || Py.breaks_within (String.length (cur ++ String b EmptyString))
                 ((cur ++ String b EmptyString) ++ s)).
    change (Py.breaks_within (S (String.length cur)) (String c (cur ++ String b s)))
      with (Py.starts_break (String c (cur ++ String b s))
            || Py.breaks_within (String.length cur) (cur ++ String b s)).
    rewrite IH, append_assoc. cbn [append]. apply orb_assoc.
Qed.

Lemma splitlines_from_eq (cur : string) (b1 : ascii) (s1 : string) :
  Py.splitlines_from cur (String b1 s1)
  = if Py.is_cr b1 then
      match s1 with
      | EmptyString => [cur]
      | String b2 s2 =>
          if Py.is_lf b2 then cur :: Py.splitlines_from EmptyString s2
          else cur :: Py.splitlines_from EmptyString s1
      end
    else if Py.break1 b1 then cur :: Py.splitlines_from EmptyString s1
    else
      match s1 with
      | EmptyString => Py.splitlines_from (cur ++ String b1 EmptyString) s1
      | String b2 s2 =>
          if Py.break2 b1 b2 then cur :: Py.splitlines_from EmptyString s2 else
          match s2 with
          | EmptyString => Py.splitlines_from (cur ++ String b1 EmptyString) s1
          | String b3 s3 =>
              if Py.break3 b1 b2 b3
              then cur :: Py.splitlines_from EmptyString s3
              else Py.splitlines_from (cur ++ String b1 EmptyString) s1
          end
      end.
Proof. destruct s1 as [| b2 [| b3 s3]]; reflexivity. Qed.

(** No line that [splitlines] returns contains a line boundary. *)
Lemma splitlines_from_no_break (n : nat) :
  forall s cur,
    String.length s <= n ->
    Py.breaks_within (String.length cur) (cur ++ s) = false ->
    Forall (fun line => Py.has_break line = false) (Py.splitlines_from cur s).
Proof.
  induction n as [| n IH]; intros s cur Hlen Hcur.
  - destruct s; [| cbn in Hlen; lia].
    cbn [Py.splitlines_from]. destruct cur; constructor; [| constructor].
    exact (breaks_within_prefix _ _ Hcur).
  - assert (Py.has_break cur = false) as Hline
      by exact (breaks_within_prefix _ _ Hcur).
    destruct s as [| b1 s1];
      [cbn [Py.splitlines_from]; destruct cur; constructor; auto |].
    cbn [String.length] in Hlen.
    assert (forall rest, String.length rest <= String.length s1 ->
              Forall (fun line => Py.has_break line = false)
                (cur :: Py.splitlines_from EmptyString rest)) as Hfresh.
    { intros rest Hrest. constructor; [exact Hline |].
      apply IH; [lia | reflexivity]. }
    assert (Py.starts_break (String b1 s1) = false ->
            Forall (fun line => Py.has_break line = false)
              (Py.splitlines_from (cur ++ String b1 EmptyString) s1)) as Hgrow.
    { intros Hsb. apply IH; [lia |].
      rewrite breaks_within_next, Hcur, Hsb. reflexivity. }
    rewrite splitlines_from_eq. cbn [Py.starts_break] in Hgrow.
    destruct (Py.is_cr b1); cbn [orb] in Hgrow.
    { destruct s1 as [| b2 s2]; [repeat constructor; exact Hline |].
      destruct (Py.is_lf b2); apply Hfresh; cbn [String.length]; lia. }
    destruct (Py.break1 b1); cbn [orb] in Hgrow.
    { apply Hfresh. lia. }
    destruct s1 as [| b2 s2]; [apply Hgrow; reflexivity |].
    destruct (Py.break2 b1 b2); cbn [orb] in Hgrow.
    { apply Hfresh. cbn [String.length]. lia. }
    destruct s2 as [| b3 s3]; [apply Hgrow; reflexivity |].
    destruct (Py.break3 b1 b2 b3).
    { apply Hfresh. cbn [String.length]. lia. }
    apply Hgrow. reflexivity.
Qed.

Lemma splitlines_no_break (text : string) :
  Forall (fun line => Py.has_break line = false) (Py.splitlines text).
Proof.
  apply (splitlines_from_no_break (String.length text)); [lia | reflexivity].
Qed.

Lemma has_break_tail (b : ascii) (s : string) :
  Py.has_break (String b s) = false -> Py.has_break s = false.
Proof.
  rewrite has_break_cons. intros H. apply orb_false_elim in H. apply H.
Qed.

Lemma after_space_no_break (s rest : string) :
  Py.after_space s = Some rest ->
  Py.has_break s = false -> Py.has_break rest = false.
Proof.
  destruct s as [| b1 [| b2 [| b3 s3]]]; cbn [Py.after_space];
    repeat match goal with
           | |- context [if ?c then _ else _] => destruct c
           end;
    intros H Hs; try discriminate H; injection H as <-;
    repeat (first [exact Hs | apply has_break_tail in Hs]).
Qed.

Lemma lstrip_no_break (s : string) :
  Py.has_break s = false -> Py.has_break (Py.lstrip s) = false.
Proof.
  induction s as [s IH] using space_ind. intros Hs.
  rewrite lstrip_eq.
  destruct (Py.after_space s) as [rest |] eqn:Hrest; [| exact Hs].
  apply (IH rest eq_refl). exact (after_space_no_break _ _ Hrest Hs).
Qed.

Lemma rstrip_no_break (s : string) :
  Py.has_break s = false -> Py.has_break (Py.rstrip s) = false.
Proof.
  intros Hs. destruct (rstrip_split s) as (w & Heq & _).
  rewrite Heq in Hs. exact (has_break_prefix _ _ Hs).
Qed.

Lemma strip_no_break (s : string) :
  Py.has_break s = false -> Py.has_break (Py.strip s) = false.
Proof.
  intros H. unfold Py.strip. apply rstrip_no_break, lstrip_no_break, H.
Qed.

(** A space between two texts makes no line boundary with its
    neighbours. *)
Lemma space_joins_no_break (p q : string) :
  Py.has_break p = false -> Py.has_break q = false ->
  Py.has_break (p ++ String " " q) = false.
Proof.
  intros Hp Hq. induction p as [| b1 p IH].
  - cbn [append]. rewrite has_break_cons, Hq.
    destruct q as [| c1 [| c2 q]]; reflexivity.
  - cbn [append]. rewrite has_break_cons in *.
    apply orb_false_elim in Hp. destruct Hp as [Hs Hp].
    rewrite (IH Hp), orb_false_r.
    destruct p as [| b2 [| b3 p]]; cbn [append Py.starts_break] in *.
    + rewrite orb_false_r in Hs. rewrite Hs. cbn [orb].
      unfold Py.break2, Py.break3.
      destruct q; cbn; rewrite ?andb_false_r; reflexivity.
    + apply orb_false_elim in Hs. destruct Hs as [Hs H2].
      rewrite orb_false_r in H2. rewrite Hs, H2. cbn [orb].
      unfold Py.break3. cbn. rewrite !andb_false_r. reflexivity.
    + exact Hs.
Qed.

Lemma join_no_break (parts : list string) :
  Forall (fun p => Py.has_break p = false) parts ->
  Py.has_break (Py.join " " parts) = false.
Proof.
  induction parts as [| p ps IH]; intros H; [reflexivity |].
  inversion H as [| ? ? Hp Hps]; subst.
  destruct ps as [| q ps]; [exact Hp |].
  change (Py.join " " (p :: q :: ps))
    with (p ++ String " " (Py.join " " (q :: ps))).
  apply space_joins_no_break; [exact Hp | exact (IH Hps)].
Qed.

Lemma compact_no_break (text : string) :
  Py.has_break (Py.join " " (map Py.strip (Py.splitlines text))) = false.
Proof.
  apply join_no_break.
  pose proof (splitlines_no_break text) as H.
  induction H as [| line lines Hl _ IH]; constructor; auto.
  apply strip_no_break, Hl.
Qed.

Section DisplayProperties.

Context {Expr : Type} {cas : sp.CAS Expr}.

(** X8: what is pretty-printed is shown on one line: for an object that
    is not a number and that the pretty-printer accepts,
    [_sympy_to_display] returns a text without any line boundary,
    however many lines the pretty-printer produced. *)
Theorem display_stays_on_one_line (obj : Expr) (text : string) :
  sp.is_Number obj = false ->
  sp.pretty obj = inr text ->
  exists shown,
    _sympy_to_display obj = inr shown
    /\ Py.has_break shown = false.
Proof.
  intros Hn Hp. unfold _sympy_to_display. rewrite Hn, Hp.
  eexists. split; [reflexivity |]. apply compact_no_break.
Qed.

End DisplayProperties.

Section DisplayRuns.

Import SymPyFragment.

Lemma display_stays_on_one_line_run :
  @sp.pretty _ ascii_art (sqrt x) = inr ("  ___" ++ nl ++ "\/ x ")
  /\ Py.has_break ("  ___" ++ nl ++ "\/ x ") = true
  /\ @_sympy_to_display _ ascii_art (sqrt x) = inr "___ \/ x"
  /\ exists shown,
       @_sympy_to_display _ ascii_art (sqrt x) = inr shown
       /\ Py.has_break shown = false.
Proof.
  repeat (split; [reflexivity |]).
  exact (@display_stays_on_one_line _ ascii_art (sqrt x)
           ("  ___" ++ nl ++ "\/ x ") eq_refl eq_refl).
Defined.

End DisplayRuns.

Section PageRuns.

Import SymPyFragment.


Lemma walkthrough_is_always_shown_run :
  exists markdown,
    generate_explanation "2+2" = inr markdown
    /\ In (st_markdown_html markdown)
          (fst (@render _ cas quiet "2+2" "('4.00000000000000', '4.0')"
                  "4.00000000000000" "4.0"))
    /\ snd (@render _ cas quiet "2+2" "('4.00000000000000', '4.0')"
              "4.00000000000000" "4.0") = inr tt.
Proof.
  pose proof (proj2 (@walkthrough_is_always_shown _ cas quiet "2+2"
                       "('4.00000000000000', '4.0')" "4.00000000000000" "4.0")
                (fun _ => eq_refl)) as H.
  destruct (generate_explanation "2+2") as [e | markdown] eqn:Hg.
  - vm_compute in Hg. discriminate Hg.
  - exists markdown. split; [reflexivity |].
    destruct H as (Hshown & _ & Hend). split; [exact Hshown | exact Hend].
Defined.

End PageRuns.
